(** * Start-up configuration of the application object (app.py)

    A shallow embedding of the module-level configuration code of
    [app.py]: loading of the configuration, the environment override,
    the check of the V3 upgrade flag, the call that splits the registry
    model, and the generation of the secret key.  The module body runs
    top to bottom and either reaches its end or stops at the first
    exception, so it is written here in a state-and-exception monad over
    the part of the process state that these lines read and write. *)

From Stdlib Require Import QArith.
From stdpp Require Import gmap strings list fin_maps.

Set Warnings "-register-all".

Local Open Scope string_scope.
Local Open Scope Z_scope.

(** ** Python values held by the configuration *)

(** The values that a configuration key can hold.  Strings stand for both
    [str] and [unicode] (Python 2 compares them by content), [PFloat]
    holds the finite floats as rationals, [PSet] and [PList] keep their
    elements in a list, [PDict] is a JSON object or Python dict with
    string keys, and [PObj] is any other object (a transaction factory,
    an HTTP client, ...), known only by an identity tag. *)
Inductive pyval : Type :=
  | PNone
  | PBool (b : bool)
  | PInt (z : Z)
  | PFloat (q : Q)
  | PStr (s : string)
  | PList (l : list pyval)
  | PSet (l : list pyval)
  | PDict (kvs : list (string * pyval))
  | PObj (id : positive).

(** Python's truth value testing ([bool(v)]), as used by [if], [or],
    [and] and [not]. *)
Definition truthy (v : pyval) : bool :=
  match v with
  | PNone => false
  | PBool b => b
  | PInt z => negb (z =? 0)
  | PFloat q => negb (Qnum q =? 0)
  | PStr s => negb (String.eqb s "")
  | PList l => match l with [] => false | _ => true end
  | PSet l => match l with [] => false | _ => true end
  | PDict kvs => match kvs with [] => false | _ => true end
  | PObj _ => true
  end.

(** [a or b] *)
Definition py_or (a b : pyval) : pyval := if truthy a then a else b.

(** [v is None] *)
Definition is_none (v : pyval) : bool :=
  match v with PNone => true | _ => false end.

(** [v != "literal"]: a value differs from a string literal unless it is
    a string with the same content. *)
Definition ne_str (v : pyval) (s : string) : bool :=
  match v with
  | PStr t => negb (String.eqb t s)
  | _ => true
  end.

(** [v == "literal"] *)
Definition eq_str (v : pyval) (s : string) : bool := negb (ne_str v s).

(** ** Outcomes and the start-up monad *)

(** The exceptions that the modelled lines can raise. *)
Inductive exn : Type :=
  | Exception (msg : string)
  | KeyError (key : string)
  | Collaborator (e : string).

Inductive outcome (A : Type) : Type :=
  | Done (a : A)
  | Raise (e : exn).
Arguments Done {A} a.
Arguments Raise {A} e.

(** One call of [registry_model.setup_split], with its four positional
    arguments. *)
Record split_args : Type := SplitArgs {
  oci_model_proportion : pyval;
  oci_namespace_whitelist : pyval;
  v22_namespace_whitelist : pyval;
  upgrade_mode : pyval
}.

(** The part of the process state written by the modelled lines:
    [app.config], the teardown handlers registered on the app, the proxy
    count with which [app.wsgi_app] was wrapped (if it was), and the log
    of calls made to [registry_model.setup_split]. *)
Record app_state : Type := AppState {
  config : gmap string pyval;
  teardown_handlers : list string;
  proxy_fix : option pyval;
  split_calls : list split_args
}.

Definition set_config (c : gmap string pyval) (st : app_state) : app_state :=
  {| config := c;
     teardown_handlers := teardown_handlers st;
     proxy_fix := proxy_fix st;
     split_calls := split_calls st |}.

(** A computation reads and writes the state and ends in a value or in an
    exception; the state reached when the exception was raised is kept. *)
Definition M (A : Type) : Type := app_state -> outcome A * app_state.

Definition ret {A} (a : A) : M A := fun st => (Done a, st).

Definition bind {A B} (m : M A) (k : A -> M B) : M B :=
  fun st =>
    match m st with
    | (Done a, st') => k a st'
    | (Raise e, st') => (Raise e, st')
    end.

Definition raise {A} (e : exn) : M A := fun st => (Raise e, st).
Definition get_state : M app_state := fun st => (Done st, st).
Definition put_state (st : app_state) : M unit := fun _ => (Done tt, st).
Definition lift {A} (o : outcome A) : M A := fun st => (o, st).

Notation "'let*' x ':=' m 'in' k" := (bind m (fun x => k))
  (at level 10, x name, m at level 100, k at level 200,
   format "'[v' 'let*'  x  ':='  m  'in' '/' k ']'").
Notation "m ';;' k" := (bind m (fun _ => k))
  (at level 100, k at level 200, right associativity,
   format "'[v' m  ';;' '/' k ']'").

(** [app.config.get(key)] and [app.config.get(key, default)] *)
Definition config_get (key : string) : M pyval :=
  let* st := get_state in ret (default PNone (config st !! key)).

Definition config_get_default (key : string) (d : pyval) : M pyval :=
  let* st := get_state in ret (default d (config st !! key)).

(** [app.config[key]], which raises [KeyError] for a missing key *)
Definition config_item (key : string) : M pyval :=
  let* st := get_state in
  match config st !! key with
  | Some v => ret v
  | None => raise (KeyError key)
  end.

(** [app.config[key] = v] *)
Definition config_set (key : string) (v : pyval) : M unit :=
  let* st := get_state in put_state (set_config (<[key := v]> (config st)) st).

(** ** The collaborators of the module *)

(** What the modelled lines take from outside [app.py]: the flags of
    [_init], the process environment, the configuration objects, the
    configuration provider, the library functions [json.loads] and
    [dict.update] (the latter only for an argument that is not a dict),
    [registry_model.setup_split] and [generate_secret_key].  A function
    that can fail returns an [outcome]. *)
Record World : Type := {
  IS_TESTING : bool;
  IS_BUILDING : bool;
  environ : gmap string string;
  flask_default_config : gmap string pyval;
  TestConfig : gmap string pyval;
  DefaultConfig : gmap string pyval;
  update_app_config : gmap string pyval -> outcome (gmap string pyval);
  json_loads : string -> outcome pyval;
  update_from_iterable : gmap string pyval -> pyval -> outcome (gmap string pyval);
  setup_split : split_args -> outcome unit;
  (** what the one call of [generate_secret_key()] does: it returns a key
      string, drawn from the random source of the system, or fails *)
  generate_secret_key : outcome string
}.

Definition OVERRIDE_CONFIG_KEY : string := "QUAY_OVERRIDE_CONFIG".

(** The state right after [app = Flask(__name__)]. *)
Definition initial_state (w : World) : app_state :=
  {| config := flask_default_config w;
     teardown_handlers := [];
     proxy_fix := None;
     split_calls := [] |}.

(** [app.config.from_object(obj)]: every upper-case attribute of the
    object is stored under its name. *)
Definition from_object (obj : gmap string pyval) : M unit :=
  let* st := get_state in put_state (set_config (obj ∪ config st) st).

(** [app.teardown_request(f)] *)
Definition teardown_request (f : string) : M unit :=
  fun st =>
    (Done tt,
     {| config := config st;
        teardown_handlers := teardown_handlers st ++ [f];
        proxy_fix := proxy_fix st;
        split_calls := split_calls st |}).

(** Lines 89-99: the test or the default configuration. *)
Definition instantiate_config (w : World) : M unit :=
  if IS_TESTING w then from_object (TestConfig w)
  else (from_object (DefaultConfig w) ;; teardown_request "close_db_filter").

(** Line 102: [config_provider.update_app_config(app.config)] *)
Definition load_override_config (w : World) : M unit :=
  let* st := get_state in
  let* c := lift (update_app_config w (config st)) in
  put_state (set_config c st).

(** [d.update(v)] for a dict [d] with string keys: the items of a dict
    argument are stored one by one; any other argument is left to
    [update_from_iterable]. *)
Definition dict_update (w : World) (c : gmap string pyval) (v : pyval)
  : outcome (gmap string pyval) :=
  match v with
  | PDict kvs => Done (fold_left (fun acc kv => <[kv.1 := kv.2]> acc) kvs c)
  | _ => update_from_iterable w c v
  end.

(** Lines 105-106: the override found in the environment. *)
Definition environ_override (w : World) : M unit :=
  let* environ_config := lift (json_loads w (default "{}" (environ w !! OVERRIDE_CONFIG_KEY))) in
  let* st := get_state in
  let* c := lift (dict_update w (config st) environ_config) in
  put_state (set_config c st).

(** Lines 109-110: remote address handling. *)
Definition fix_remote_address : M unit :=
  let* n := config_get_default "PROXY_COUNT" (PInt 1) in
  if truthy n then
    let* n' := config_get_default "PROXY_COUNT" (PInt 1) in
    fun st =>
      (Done tt,
       {| config := config st;
          teardown_handlers := teardown_handlers st;
          proxy_fix := Some n';
          split_calls := split_calls st |})
  else ret tt.

(** Lines 114-128: the check of the V3 upgrade flag. *)
Definition check_v3_upgrade_mode (w : World) : M unit :=
  let* guard :=
    if negb (IS_TESTING w) && negb (IS_BUILDING w) then
      let* setup_complete := config_get_default "SETUP_COMPLETE" (PBool false) in
      ret (truthy setup_complete)
    else ret false in
  if guard then
    let* v3_upgrade_mode := config_get "V3_UPGRADE_MODE" in
    if is_none v3_upgrade_mode then
      raise (Exception
        "Configuration flag `V3_UPGRADE_MODE` must be set. Please check the upgrade docs")
    else if ne_str v3_upgrade_mode "background"
         && ne_str v3_upgrade_mode "complete"
         && ne_str v3_upgrade_mode "production-transition"
         && ne_str v3_upgrade_mode "post-oci-rollout"
         && ne_str v3_upgrade_mode "post-oci-roll-back-compat"
    then
      raise (Exception
        "Invalid value for config `V3_UPGRADE_MODE`. Please check the upgrade docs")
    else ret tt
  else ret tt.

(** The state after one more call of [registry_model.setup_split]. *)
Definition log_call (a : split_args) (st : app_state) : app_state :=
  {| config := config st;
     teardown_handlers := teardown_handlers st;
     proxy_fix := proxy_fix st;
     split_calls := split_calls st ++ [a] |}.

(** The call itself: it is entered in the log, then its outcome is that
    of the collaborator. *)
Definition call_setup_split (w : World) (a : split_args) : M unit :=
  fun st => (setup_split w a, log_call a st).

(** Lines 132-137: the split of the registry model. *)
Definition split_registry_model (w : World) : M unit :=
  let* p := config_get "OCI_NAMESPACE_PROPORTION" in
  let* ow := config_get "OCI_NAMESPACE_WHITELIST" in
  let* vw := config_get "V22_NAMESPACE_WHITELIST" in
  let* m := config_get "V3_UPGRADE_MODE" in
  call_setup_split w
    {| oci_model_proportion := py_or p (PInt 0);
       oci_namespace_whitelist := py_or ow (PSet []);
       v22_namespace_whitelist := py_or vw (PSet []);
       upgrade_mode := m |}.

(** The characters on which [str.split()] without argument splits. *)
Definition is_space (c : Ascii.ascii) : bool :=
  let n := Ascii.nat_of_ascii c in
  (Nat.eqb n 32 || (Nat.leb 9 n && Nat.leb n 13))%bool.

(** [s.split()]: the maximal runs of characters that are not white
    space; [cur] is the run being read. *)
Fixpoint split_from (cur : string) (s : string) : list string :=
  match s with
  | EmptyString => if String.eqb cur "" then [] else [cur]
  | String c s' =>
      if is_space c then
        if String.eqb cur "" then split_from "" s'
        else cur :: split_from "" s'
      else split_from (cur +:+ String c EmptyString) s'
  end.

Definition py_split (s : string) : list string := split_from "" s.

(** Lines 140-142: the storage preference of the local instance. *)
Definition storage_preference (w : World) : M unit :=
  let _distributed_storage_preference :=
    py_split (default "" (environ w !! "QUAY_DISTRIBUTED_STORAGE_PREFERENCE")) in
  match _distributed_storage_preference with
  | [] => ret tt
  | _ => config_set "DISTRIBUTED_STORAGE_PREFERENCE"
           (PList (PStr <$> _distributed_storage_preference))
  end.

(** Lines 145-147: the secret key. *)
Definition secret_key (w : World) : M unit :=
  let* k := config_item "SECRET_KEY" in
  if is_none k then
    let* fresh := lift (generate_secret_key w) in
    config_set "SECRET_KEY" (PStr fresh)
  else ret tt.

(** Lines 151-154: the secure session cookie. *)
Definition session_cookie : M unit :=
  let* scheme := config_item "PREFERRED_URL_SCHEME" in
  if eq_str scheme "https" then
    let* force := config_get_default "FORCE_NONSECURE_SESSION_COOKIE" (PBool false) in
    if negb (truthy force) then config_set "SESSION_COOKIE_SECURE" (PBool true)
    else ret tt
  else ret tt.

(** Lines 140-154, what follows the split of the registry model. *)
Definition after_split (w : World) : M unit :=
  storage_preference w ;; secret_key w ;; session_cookie.

(** Lines 85-110: the configuration is loaded. *)
Definition load_config (w : World) : M unit :=
  instantiate_config w ;;
  load_override_config w ;;
  environ_override w ;;
  fix_remote_address.

(** Lines 112-154: the loaded configuration is checked and applied. *)
Definition configure (w : World) : M unit :=
  check_v3_upgrade_mode w ;;
  split_registry_model w ;;
  after_split w.

(** The module body up to the import of the features. *)
Definition startup (w : World) : M unit :=
  load_config w ;; configure w.

(** A computation that leaves the log of [setup_split] calls as it found
    it, whether it ends normally or by an exception. *)
Definition keeps_calls {A} (m : M A) : Prop :=
  forall st, split_calls (m st).2 = split_calls st.


(** * The routing controller

    [app.py] hands the proportion, the two lists and the upgrade mode to
    [registry_model.setup_split] and keeps nothing of them.  The
    controller that consumes them is part of [data.registry_model], which
    is not among the sources at hand; the definitions of this module
    follow sections 3 and 4 of the design document instead. *)
Module Router.

(** Modelled from the spec: TenantId of section 3, the identifier of a
    namespace; [data.registry_model] is missing. *)
Definition TenantId : Type := string.

(** Modelled from the spec: ModelVariant of section 3; the two data
    models of [data.registry_model] are missing. *)
Inductive ModelVariant : Type := Legacy | Modern.

(** Modelled from the spec: MigrationPhase of section 3; the handling of
    the upgrade mode in [data.registry_model] is missing. *)
Inductive MigrationPhase : Type :=
  | Background
  | ProductionTransition
  | PostCutoverRollout
  | Complete
  | RollbackCompat.

(** Modelled from the spec: RolloutPolicy of sections 2 and 3, the
    proportion and the two allow-lists; the split model of
    [data.registry_model] is missing. *)
Record RolloutPolicy : Type := {
  proportion : Q;
  modernOverrides : gset TenantId;
  secondarySchemaOverrides : gset TenantId
}.

(** Modelled from the spec: RoutingDecision of section 3; the dispatch of
    [data.registry_model] is missing. *)
Record RoutingDecision : Type := {
  primary : ModelVariant;
  secondary : option ModelVariant;
  readTranslation : bool
}.

(** Modelled from the spec: the ConfigurationError of section 7 and its
    three causes; the error handling of [data.registry_model] is
    missing. *)
Inductive ConfigurationError : Type :=
  | InvalidProportion
  | UnknownPhaseToken
  | IllegalTransition.

(** Modelled from the spec: the snapshot of section 3 that a reload
    swaps, a policy with a phase.  [prior] is the phase that was active
    when RollbackCompat was declared, which section 4.3 needs for the
    primary writes of that phase; in any other phase it repeats [phase].
    The router state of [data.registry_model] is missing. *)
Record Snapshot : Type := {
  policy : RolloutPolicy;
  phase : MigrationPhase;
  prior : MigrationPhase
}.

(** Modelled from the spec: the construction of a RolloutPolicy, section
    4.2: a proportion outside the interval from 0 to 1 is a configuration
    error.  The constructor of the split model is missing. *)
Definition make_policy (p : Q) (modern second : gset TenantId)
  : ConfigurationError + RolloutPolicy :=
  if Qle_bool 0 p && Qle_bool p 1 then
    inr {| proportion := p;
           modernOverrides := modern;
           secondarySchemaOverrides := second |}
  else inl InvalidProportion.

(** Modelled from the spec: the place of a phase in the chain Background,
    ProductionTransition, PostCutoverRollout, Complete of section 4.3;
    RollbackCompat is off the chain.  The phase handling of
    [data.registry_model] is missing. *)
Definition chain_index (ph : MigrationPhase) : option nat :=
  match ph with
  | Background => Some 0%nat
  | ProductionTransition => Some 1%nat
  | PostCutoverRollout => Some 2%nat
  | Complete => Some 3%nat
  | RollbackCompat => None
  end.

(** Modelled from the spec: the transition rule of section 4.3 as the
    table that section 9 asks for.  Forward edges of the chain, skipping
    allowed; the edge from every phase into RollbackCompat; the edge from
    RollbackCompat to ProductionTransition.  A reload that keeps the
    phase asks for no transition and is let through.  The transition
    check of [data.registry_model] is missing. *)
Definition legal_transition (from to : MigrationPhase) : bool :=
  match from, to with
  | _, RollbackCompat => true
  | Background, _ => true
  | ProductionTransition, (ProductionTransition | PostCutoverRollout | Complete) => true
  | PostCutoverRollout, (PostCutoverRollout | Complete) => true
  | Complete, Complete => true
  | RollbackCompat, ProductionTransition => true
  | _, _ => false
  end.

(** Modelled from the spec: reload of section 4.4.  The requested phase
    is validated against the current one; a legal request installs the
    new pair, an illegal one fails and leaves the snapshot in place.  The
    result is the active snapshot after the call and the error, if any.
    The reload of the router is missing. *)
Definition reload (cur : Snapshot) (newPolicy : RolloutPolicy)
    (newPhase : MigrationPhase) : Snapshot * option ConfigurationError :=
  if legal_transition (phase cur) newPhase then
    ({| policy := newPolicy;
        phase := newPhase;
        prior := match newPhase with
                 | RollbackCompat =>
                     match phase cur with
                     | RollbackCompat => prior cur
                     | ph => ph
                     end
                 | ph => ph
                 end |},
     None)
  else (cur, Some IllegalTransition).

Section Classifier.

(** Modelled from the spec: the NamespaceClassifier of section 4.1, a
    deterministic function from the tenant to a point of the interval
    from 0 to 1; the hash of [data.registry_model] is missing, and no
    statement below depends on which function it is. *)
Variable bucket : TenantId -> Q.

(** Modelled from the spec: decide of section 4.2.  A tenant of
    modernOverrides gets Modern; otherwise Modern when its bucket is
    below the proportion, else Legacy.  The decision of the split model
    is missing. *)
Definition decide (pol : RolloutPolicy) (t : TenantId) : ModelVariant :=
  if bool_decide (t ∈ modernOverrides pol) then Modern
  else if negb (Qle_bool (proportion pol) (bucket t)) then Modern
  else Legacy.

(** Modelled from the spec: the table of section 4.3, the effect of a
    phase other than RollbackCompat on the decision of the policy.  The
    phase handling of [data.registry_model] is missing. *)
Definition phase_effect (ph : MigrationPhase) (base : ModelVariant)
  : RoutingDecision :=
  match ph with
  | ProductionTransition =>
      match base with
      | Modern => {| primary := Modern; secondary := Some Legacy;
                     readTranslation := false |}
      | Legacy => {| primary := Legacy; secondary := None;
                     readTranslation := false |}
      end
  | Complete =>
      {| primary := Modern; secondary := None; readTranslation := false |}
  | Background | PostCutoverRollout | RollbackCompat =>
      {| primary := base; secondary := None; readTranslation := false |}
  end.

(** Modelled from the spec: route of section 4.4, sections 4.2 and 4.3
    composed.  In RollbackCompat the writes are those of the prior
    phase and the reads are translated.  The router of
    [data.registry_model] is missing. *)
Definition route (snap : Snapshot) (t : TenantId) : RoutingDecision :=
  let base := decide (policy snap) t in
  match phase snap with
  | RollbackCompat =>
      let d := phase_effect (prior snap) base in
      {| primary := primary d; secondary := secondary d;
         readTranslation := true |}
  | ph => phase_effect ph base
  end.

End Classifier.

(** Modelled from the spec: a forward edge of the chain of section 4.3,
    one step or several. *)
Definition forward (from to : MigrationPhase) : Prop :=
  exists i j, chain_index from = Some i /\ chain_index to = Some j /\ (i < j)%nat.

(** A classifier for the examples: the tenant named alpha lands at 1/4,
    every other tenant at 3/4. *)
Definition sample_bucket (t : TenantId) : Q :=
  if String.eqb t "alpha" then (1 # 4)%Q else (3 # 4)%Q.

(** A policy for the examples: proportion 0 and the tenant named beta
    as the only override. *)
Definition sample_policy : RolloutPolicy :=
  {| proportion := 0; modernOverrides := {[ "beta" ]};
     secondarySchemaOverrides := ∅ |}.

(** A policy with proportion 0 and no override at all. *)
Definition closed_policy : RolloutPolicy :=
  {| proportion := 0; modernOverrides := ∅; secondarySchemaOverrides := ∅ |}.

(** A policy with proportion 1 and no override. *)
Definition full_policy : RolloutPolicy :=
  {| proportion := 1; modernOverrides := ∅; secondarySchemaOverrides := ∅ |}.

End Router.

(** ** Vocabulary of the statements *)

(** The five values of [V3_UPGRADE_MODE] that lines 121-127 compare with. *)
Definition upgrade_modes : list string :=
  ["background"; "complete"; "production-transition"; "post-oci-rollout";
   "post-oci-roll-back-compat"].

(** [app.config.get(key)] read off a state. *)
Definition config_value (st : app_state) (key : string) : pyval :=
  default PNone (config st !! key).

(** [SETUP_COMPLETE] is set to a true value. *)
Definition setup_complete (st : app_state) : bool :=
  truthy (default (PBool false) (config st !! "SETUP_COMPLETE")).

(** A number outside the interval from 0 to 1. *)
Definition out_of_unit_interval (v : pyval) : Prop :=
  match v with
  | PInt z => z < 0 \/ 1 < z
  | PFloat q => (q < 0)%Q \/ (1 < q)%Q
  | _ => False
  end.

(** The upgrade flag gets past lines 114-128: the check is skipped, or
    the flag holds one of the five values. *)
Definition upgrade_mode_accepted (w : World) (st : app_state) : Prop :=
  IS_TESTING w = true \/ IS_BUILDING w = true \/ setup_complete st = false \/
  exists t, t ∈ upgrade_modes /\ config_value st "V3_UPGRADE_MODE" = PStr t.

(** ** Worlds on which the model is run *)

Definition quote : string := String (Ascii.ascii_of_nat 34) EmptyString.

(** The override document that sets [PROXY_COUNT] to 2 and
    [V3_UPGRADE_MODE] to the string complete. *)
Definition sample_override : string :=
  "{" +:+ quote +:+ "PROXY_COUNT" +:+ quote +:+ ": 2, "
      +:+ quote +:+ "V3_UPGRADE_MODE" +:+ quote +:+ ": "
      +:+ quote +:+ "complete" +:+ quote +:+ "}".

(** A world with the given flags, environment and configuration object,
    a provider that changes nothing, a registry model that accepts every
    split, and a [json.loads] that knows the empty object and the sample
    document. *)
Definition sample_world (testing building : bool) (env : gmap string string)
    (cfg : gmap string pyval) : World :=
  {| IS_TESTING := testing;
     IS_BUILDING := building;
     environ := env;
     flask_default_config :=
       {[ "SECRET_KEY" := PNone; "PREFERRED_URL_SCHEME" := PStr "http" ]};
     TestConfig := cfg;
     DefaultConfig := cfg;
     update_app_config := Done;
     json_loads := fun s =>
       if String.eqb s "{}" then Done (PDict [])
       else if String.eqb s sample_override then
         Done (PDict [("PROXY_COUNT", PInt 2); ("V3_UPGRADE_MODE", PStr "complete")])
       else Raise (Collaborator "ValueError");
     update_from_iterable := fun _ _ => Raise (Collaborator "TypeError");
     setup_split := fun _ => Done tt;
     generate_secret_key := Done "30071996471356" |}.

(** A production deployment whose upgrade flag holds [mode]. *)
Definition production_world (mode : pyval) : World :=
  sample_world false false ∅
    {[ "SETUP_COMPLETE" := PBool true; "V3_UPGRADE_MODE" := mode ]}.

(** A production deployment that does not set the upgrade flag. *)
Definition unflagged_world : World :=
  sample_world false false ∅ {[ "SETUP_COMPLETE" := PBool true ]}.

(** A production deployment in the background phase whose configuration
    sets the proportion to 2. *)
Definition oversized_world : World :=
  sample_world false false ∅
    {[ "SETUP_COMPLETE" := PBool true;
       "V3_UPGRADE_MODE" := PStr "background";
       "OCI_NAMESPACE_PROPORTION" := PInt 2 ]}.

(** A production deployment whose environment carries the sample
    override, over a configuration that says otherwise. *)
Definition overridden_world : World :=
  sample_world false false {[ OVERRIDE_CONFIG_KEY := sample_override ]}
    {[ "SETUP_COMPLETE" := PBool true;
       "V3_UPGRADE_MODE" := PStr "background";
       "PROXY_COUNT" := PInt 1 ]}.

(** The state in which [load_config] leaves a world. *)
Definition loaded (w : World) : app_state := (load_config w (initial_state w)).2.

(** ** Frames *)

(** The second state agrees with the first on the teardown handlers, on
    the proxy fix and on every configuration key outside [keys]. *)
Definition same_but (keys : list string) (st st' : app_state) : Prop :=
  teardown_handlers st' = teardown_handlers st
  /\ proxy_fix st' = proxy_fix st
  /\ forall k, k ∉ keys -> config st' !! k = config st !! k.

(** A computation that, however it ends, writes no configuration key
    outside [keys], no teardown handler and no proxy fix. *)
Definition touches_only {A} (keys : list string) (m : M A) : Prop :=
  forall st, same_but keys st (m st).2.

(** The keys that lines 112-154 assign. *)
Definition configure_keys : list string :=
  ["DISTRIBUTED_STORAGE_PREFERENCE"; "SECRET_KEY"; "SESSION_COOKIE_SECURE"].

(** The arguments that lines 132-137 build from a configuration. *)
Definition configured_split (st : app_state) : split_args :=
  {| oci_model_proportion := py_or (config_value st "OCI_NAMESPACE_PROPORTION") (PInt 0);
     oci_namespace_whitelist := py_or (config_value st "OCI_NAMESPACE_WHITELIST") (PSet []);
     v22_namespace_whitelist := py_or (config_value st "V22_NAMESPACE_WHITELIST") (PSet []);
     upgrade_mode := config_value st "V3_UPGRADE_MODE" |}.

(** A string made of white space only. *)
Definition blank (s : string) : bool :=
  forallb is_space (String.list_ascii_of_string s).

(** A non-empty string without white space. *)
Definition is_word (s : string) : bool :=
  negb (String.eqb s "")
  && forallb (fun c => negb (is_space c)) (String.list_ascii_of_string s).

(** What [QUAY_DISTRIBUTED_STORAGE_PREFERENCE] holds, the empty string
    when it is unset. *)
Definition storage_preference_text (w : World) : string :=
  default "" (environ w !! "QUAY_DISTRIBUTED_STORAGE_PREFERENCE").

(** The secret key step can go through: the key is there, and when it is
    [None] the generator delivers. *)
Definition secret_key_available (w : World) (st : app_state) : Prop :=
  exists v, config st !! "SECRET_KEY" = Some v
            /\ (v = PNone -> exists fresh, generate_secret_key w = Done fresh).

(** A computation that leaves one component of the state as it found it,
    however it ends. *)
Definition keeps {A X} (f : app_state -> X) (m : M A) : Prop :=
  forall st, f (m st).2 = f st.

(** The proxy count that lines 109-110 read. *)
Definition proxy_count (st : app_state) : pyval :=
  default (PInt 1) (config st !! "PROXY_COUNT").

(** ** The check of the database secret key *)

(** Lines 335-336: [DATABASE_SECRET_KEY] must be set once the setup is
    complete. *)
Definition check_database_secret_key : M unit :=
  let* secret := config_get "DATABASE_SECRET_KEY" in
  let* guard :=
    if is_none secret then
      let* setup_complete := config_get_default "SETUP_COMPLETE" (PBool false) in
      ret (truthy setup_complete)
    else ret false in
  if guard then
    raise (Exception
      "Missing DATABASE_SECRET_KEY in config; did you perhaps forget to add it?")
  else ret tt.

(** ** The request hooks *)

(** What a request hook reports to the outside: a call of
    [pydevd.settrace] with its host and port, or a call of
    [logger.debug] with its format, its arguments and its [extra]
    dictionary, whose items are kept in the order of the source. *)
Inductive hook_event : Type :=
  | Settrace (host : string) (port : Z)
  | Debug (format : string) (args : list string) (extra : list (string * pyval)).

(** The exceptions of a hook: the [ValueError] of an unpacking into two
    names that met another number of values, the [ValueError] of [int],
    and whatever a collaborator raised. *)
Inductive hook_exn : Type :=
  | ValueError_unpack (values : nat)
  | ValueError_int (literal : string)
  | Raised (e : exn).

(** The debugger, as far as [_request_start] uses it: the import of
    [pydevd], the builtin [int] on a string ([None] for its
    [ValueError]), and [pydevd.settrace]. *)
Record Debugger : Type := {
  import_pydevd : outcome unit;
  py_int : string -> option Z;
  settrace : string -> Z -> outcome unit
}.

(** [s.split(sep)] for a separator of one character: the pieces between
    the separators, empty ones included; [cur] is the piece being
    read. *)
Fixpoint split_on_from (sep : Ascii.ascii) (cur : string) (s : string) : list string :=
  match s with
  | EmptyString => [cur]
  | String c s' =>
      if Ascii.eqb c sep then cur :: split_on_from sep "" s'
      else split_on_from sep (cur +:+ String c EmptyString) s'
  end.

Definition split_on (sep : Ascii.ascii) (s : string) : list string :=
  split_on_from sep "" s.

Definition colon : Ascii.ascii := Ascii.ascii_of_nat 58.

(** Lines 172-187: the hook that runs before every request. *)
Definition _request_start (w : World) (d : Debugger) (request_id path : string)
  : list hook_event * option hook_exn :=
  let start :=
    Debug "Starting request: %s (%s)" [request_id; path]
      [("request_id", PStr request_id)] in
  match environ w !! "PYDEV_DEBUG" with
  | Some PYDEV_DEBUG =>
      if truthy (PStr PYDEV_DEBUG) then
        match import_pydevd d with
        | Raise e => ([], Some (Raised e))
        | Done _ =>
            match split_on colon PYDEV_DEBUG with
            | [host; port] =>
                match py_int d port with
                | None => ([], Some (ValueError_int port))
                | Some n =>
                    match settrace d host n with
                    | Raise e => ([Settrace host n], Some (Raised e))
                    | Done _ => ([Settrace host n; start], None)
                    end
                end
            | values => ([], Some (ValueError_unpack (length values)))
            end
        end
      else ([start], None)
  | None => ([start], None)
  end.

(** The number of occurrences of a character in a string. *)
Fixpoint count_char (c : Ascii.ascii) (s : string) : nat :=
  match s with
  | EmptyString => 0%nat
  | String x s' => ((if Ascii.eqb x c then 1 else 0) + count_char c s')%nat
  end.

(** [DEFAULT_FILTER], line 190. *)
Definition DEFAULT_FILTER (x : pyval) : option pyval := Some (PStr "[FILTERED]").

(** [lambda x: x[0:8]], line 194: the first eight items of a string or
    of a list, [None] for the [TypeError] of a value that cannot be
    sliced. *)
Definition blob_filter (x : pyval) : option pyval :=
  match x with
  | PStr s => Some (PStr (String.substring 0 8 s))
  | PList l => Some (PList (take 8 l))
  | _ => None
  end.

(** One entry of [FILTERED_VALUES]. *)
Record filtered_value : Type := {
  key : list string;
  fn : pyval -> option pyval
}.

(** Lines 191-195. *)
Definition FILTERED_VALUES : list filtered_value :=
  [ {| key := ["password"]; fn := DEFAULT_FILTER |};
    {| key := ["user"; "password"]; fn := DEFAULT_FILTER |};
    {| key := ["blob"]; fn := blob_filter |} ].

(** What [request.get_json(force=True, silent=True)] does: it returns a
    value, raises an [HTTPException], or raises something else. *)
Inductive json_result : Type :=
  | JsonValue (v : pyval)
  | JsonHTTPException
  | JsonError (e : exn).

(** The request, as far as [_request_end] reads it; [user_agent] holds
    the [string] of the user agent when there is one. *)
Record Request : Type := {
  endpoint : pyval;
  request_id : string;
  remote_addr : pyval;
  method : string;
  url : string;
  path : string;
  values_to_dict : pyval;
  get_json : json_result;
  user_agent : option string
}.

(** [isinstance(v, dict)] *)
Definition is_dict (v : pyval) : bool :=
  match v with PDict _ => true | _ => false end.

(** Lines 198-229: the hook that runs after every request.
    [filter_logs] of [util.log] changes the values in place; it is given
    as the function from the values and the table to the values it
    leaves. *)
Definition _request_end
    (filter_logs : pyval -> list filtered_value -> outcome pyval)
    (CONFIG_DIGEST : string) (request : Request) (resp : pyval)
  : list hook_event * outcome pyval :=
  match
    match get_json request with
    | JsonValue v => Done v
    | JsonHTTPException => Done PNone
    | JsonError e => Raise e
    end
  with
  | Raise e => ([], Raise e)
  | Done jsonbody =>
      let values := values_to_dict request in
      let jsonbody :=
        if truthy jsonbody && negb (is_dict jsonbody)
        then PDict [("_parsererror", jsonbody)]
        else jsonbody in
      match (if is_dict values then filter_logs values FILTERED_VALUES
             else Done values) with
      | Raise e => ([], Raise e)
      | Done values =>
          let extra :=
            [ ("endpoint", endpoint request);
              ("request_id", PStr (request_id request));
              ("remote_addr", remote_addr request);
              ("http_method", PStr (method request));
              ("original_url", PStr (url request));
              ("path", PStr (path request));
              ("parameters", values);
              ("json_body", jsonbody);
              ("confsha", PStr CONFIG_DIGEST) ] in
          let extra :=
            match user_agent request with
            | Some agent => (extra ++ [("user-agent", PStr agent)])%list
            | None => extra
            end in
          ([Debug "Ending request: %s (%s)" [request_id request; path request] extra],
           Done resp)
      end
  end.
(** ** Running the monad *)

Lemma bind_run {A B} (m : M A) (k : A -> M B) (st : app_state) :
  bind m k st =
  match m st with
  | (Done a, st') => k a st'
  | (Raise e, st') => (Raise e, st')
  end.
Proof. reflexivity. Qed.

Lemma bind_Done_inv {A B} (m : M A) (k : A -> M B) st b st' :
  bind m k st = (Done b, st') ->
  exists a st1, m st = (Done a, st1) /\ k a st1 = (Done b, st').
Proof.
  rewrite bind_run. destruct (m st) as [[a|e] st1]; intros H.
  - exists a, st1. split; [reflexivity | exact H].
  - discriminate H.
Qed.

Lemma bind_Done {A B} (m : M A) (k : A -> M B) st a st1 :
  m st = (Done a, st1) -> bind m k st = k a st1.
Proof. intros H. rewrite bind_run, H. reflexivity. Qed.

Lemma bind_Raise {A B} (m : M A) (k : A -> M B) st e st1 :
  m st = (Raise e, st1) -> bind m k st = (Raise e, st1).
Proof. intros H. rewrite bind_run, H. reflexivity. Qed.

Lemma keeps_calls_bind {A B} (m : M A) (k : A -> M B) :
  keeps_calls m -> (forall a, keeps_calls (k a)) -> keeps_calls (bind m k).
Proof.
  intros Hm Hk st. rewrite bind_run. specialize (Hm st).
  destruct (m st) as [[a|e] st1]; simpl in *.
  - rewrite Hk. exact Hm.
  - exact Hm.
Qed.

Lemma keeps_calls_ret {A} (a : A) : keeps_calls (ret a).
Proof. intros st. reflexivity. Qed.

Lemma keeps_calls_raise {A} (e : exn) : keeps_calls (@raise A e).
Proof. intros st. reflexivity. Qed.

Lemma keeps_calls_lift {A} (o : outcome A) : keeps_calls (lift o).
Proof. intros st. reflexivity. Qed.

Lemma keeps_calls_config_get key : keeps_calls (config_get key).
Proof. intros st. reflexivity. Qed.

Lemma keeps_calls_config_get_default key d :
  keeps_calls (config_get_default key d).
Proof. intros st. reflexivity. Qed.

Lemma keeps_calls_config_item key : keeps_calls (config_item key).
Proof. intros st. unfold config_item. cbn. destruct (config st !! key); reflexivity. Qed.

Lemma keeps_calls_config_set key v : keeps_calls (config_set key v).
Proof. intros st. reflexivity. Qed.

Create HintDb calls.
#[local] Hint Resolve keeps_calls_ret keeps_calls_raise keeps_calls_lift
  keeps_calls_config_get keeps_calls_config_get_default
  keeps_calls_config_item keeps_calls_config_set : calls.

Lemma keeps_calls_from_object obj : keeps_calls (from_object obj).
Proof. intros st. reflexivity. Qed.

Lemma keeps_calls_teardown_request f : keeps_calls (teardown_request f).
Proof. intros st. reflexivity. Qed.

Lemma keeps_calls_instantiate_config w : keeps_calls (instantiate_config w).
Proof.
  unfold instantiate_config. destruct (IS_TESTING w).
  - apply keeps_calls_from_object.
  - apply keeps_calls_bind; [apply keeps_calls_from_object |].
    intros _. apply keeps_calls_teardown_request.
Qed.

Lemma keeps_calls_load_override_config w : keeps_calls (load_override_config w).
Proof.
  intros st. unfold load_override_config. cbn.
  destruct (update_app_config w (config st)); reflexivity.
Qed.

Lemma keeps_calls_environ_override w : keeps_calls (environ_override w).
Proof.
  intros st. unfold environ_override. cbn.
  destruct (json_loads w _) as [v|e]; cbn; [| reflexivity].
  destruct (dict_update w (config st) v); reflexivity.
Qed.

Lemma keeps_calls_fix_remote_address : keeps_calls fix_remote_address.
Proof.
  intros st. unfold fix_remote_address. cbn.
  destruct (truthy _); reflexivity.
Qed.

Lemma keeps_calls_load_config w : keeps_calls (load_config w).
Proof.
  unfold load_config.
  apply keeps_calls_bind; [apply keeps_calls_instantiate_config | intros _].
  apply keeps_calls_bind; [apply keeps_calls_load_override_config | intros _].
  apply keeps_calls_bind; [apply keeps_calls_environ_override | intros _].
  apply keeps_calls_fix_remote_address.
Qed.

Lemma keeps_calls_storage_preference w : keeps_calls (storage_preference w).
Proof.
  unfold storage_preference. destruct (py_split _); auto with calls.
Qed.

Lemma keeps_calls_secret_key w : keeps_calls (secret_key w).
Proof.
  unfold secret_key. apply keeps_calls_bind; [auto with calls |].
  intros k. destruct (is_none k); [| auto with calls].
  apply keeps_calls_bind; auto with calls.
Qed.

Lemma keeps_calls_session_cookie : keeps_calls session_cookie.
Proof.
  unfold session_cookie. apply keeps_calls_bind; [auto with calls |].
  intros scheme. destruct (eq_str scheme "https"); [| auto with calls].
  apply keeps_calls_bind; [auto with calls |].
  intros force. destruct (negb (truthy force)); auto with calls.
Qed.

Lemma keeps_calls_after_split w : keeps_calls (after_split w).
Proof.
  unfold after_split.
  apply keeps_calls_bind; [apply keeps_calls_storage_preference | intros _].
  apply keeps_calls_bind; [apply keeps_calls_secret_key | intros _].
  apply keeps_calls_session_cookie.
Qed.

Lemma load_config_calls w st :
  load_config w (initial_state w) = (Done tt, st) -> split_calls st = [].
Proof.
  intros H. pose proof (keeps_calls_load_config w (initial_state w)) as K.
  rewrite H in K. exact K.
Qed.

Lemma startup_run w st0 :
  startup w st0 =
  match load_config w st0 with
  | (Done _, st) => configure w st
  | (Raise e, st) => (Raise e, st)
  end.
Proof. reflexivity. Qed.

(** ** The model on examples *)

Example py_split_runs :
  py_split " local_us   local_eu " = ["local_us"; "local_eu"].
Proof. reflexivity. Qed.

Example py_split_blank : py_split "   " = [].
Proof. reflexivity. Qed.

Example startup_complete_phase :
  (startup (production_world (PStr "complete"))
     (initial_state (production_world (PStr "complete")))).1 = Done tt.
Proof. vm_compute. reflexivity. Qed.

Example startup_override_applied :
  let st := (startup overridden_world (initial_state overridden_world)).2 in
  config st !! "V3_UPGRADE_MODE" = Some (PStr "complete")
  /\ proxy_fix st = Some (PInt 2)
  /\ upgrade_mode <$> split_calls st = [PStr "complete"].
Proof. vm_compute. repeat split; reflexivity. Qed.

(** ** The check of the upgrade flag *)

Lemma ne_str_true_iff v s : ne_str v s = true <-> v <> PStr s.
Proof.
  destruct v; simpl; try (split; [intros _; discriminate | reflexivity]).
  destruct (String.eqb_spec s0 s) as [->|Hne]; simpl.
  - split; [discriminate | intros H; contradiction H; reflexivity].
  - split; [intros _ [= E]; contradiction | reflexivity].
Qed.

Lemma ne_str_modes v :
  ne_str v "background" && ne_str v "complete"
  && ne_str v "production-transition" && ne_str v "post-oci-rollout"
  && ne_str v "post-oci-roll-back-compat" = true
  <-> (forall t, v = PStr t -> t ∉ upgrade_modes).
Proof.
  rewrite !andb_true_iff, !ne_str_true_iff. unfold upgrade_modes. split.
  - intros [[[[H1 H2] H3] H4] H5] t -> Hin.
    repeat (apply elem_of_cons in Hin as [-> | Hin]; [congruence |]).
    by apply elem_of_nil in Hin.
  - intros H. repeat split; intros E; apply (H _ E); set_solver.
Qed.

Lemma check_v3_upgrade_mode_skipped w st :
  IS_TESTING w = true \/ IS_BUILDING w = true \/ setup_complete st = false ->
  check_v3_upgrade_mode w st = (Done tt, st).
Proof.
  unfold check_v3_upgrade_mode, setup_complete. intros H.
  destruct (IS_TESTING w); [reflexivity |].
  destruct (IS_BUILDING w); [reflexivity |].
  destruct H as [H | [H | H]]; try discriminate H.
  cbn. rewrite H. reflexivity.
Qed.

Lemma check_v3_upgrade_mode_active w st :
  IS_TESTING w = false -> IS_BUILDING w = false -> setup_complete st = true ->
  check_v3_upgrade_mode w st =
  let v := config_value st "V3_UPGRADE_MODE" in
  if is_none v then
    (Raise (Exception
       "Configuration flag `V3_UPGRADE_MODE` must be set. Please check the upgrade docs"), st)
  else if ne_str v "background" && ne_str v "complete"
          && ne_str v "production-transition" && ne_str v "post-oci-rollout"
          && ne_str v "post-oci-roll-back-compat"
  then
    (Raise (Exception
       "Invalid value for config `V3_UPGRADE_MODE`. Please check the upgrade docs"), st)
  else (Done tt, st).
Proof.
  unfold check_v3_upgrade_mode, setup_complete, config_value.
  intros -> -> HS. cbn. rewrite HS. cbn.
  destruct (is_none _); [reflexivity |].
  destruct (ne_str _ _ && _ && _ && _ && _); reflexivity.
Qed.

(** ** The split of the registry model *)

Lemma split_registry_model_run w st :
  split_registry_model w st =
  let a := {| oci_model_proportion := py_or (config_value st "OCI_NAMESPACE_PROPORTION") (PInt 0);
              oci_namespace_whitelist := py_or (config_value st "OCI_NAMESPACE_WHITELIST") (PSet []);
              v22_namespace_whitelist := py_or (config_value st "V22_NAMESPACE_WHITELIST") (PSet []);
              upgrade_mode := config_value st "V3_UPGRADE_MODE" |} in
  (setup_split w a, log_call a st).
Proof. reflexivity. Qed.

Lemma configure_checked w st :
  check_v3_upgrade_mode w st = (Done tt, st) ->
  configure w st =
  let a := {| oci_model_proportion := py_or (config_value st "OCI_NAMESPACE_PROPORTION") (PInt 0);
              oci_namespace_whitelist := py_or (config_value st "OCI_NAMESPACE_WHITELIST") (PSet []);
              v22_namespace_whitelist := py_or (config_value st "V22_NAMESPACE_WHITELIST") (PSet []);
              upgrade_mode := config_value st "V3_UPGRADE_MODE" |} in
  match setup_split w a with
  | Done _ => after_split w (log_call a st)
  | Raise e => (Raise e, log_call a st)
  end.
Proof.
  intros H. unfold configure. rewrite (bind_Done _ _ _ _ _ H).
  rewrite bind_run, split_registry_model_run. cbn zeta.
  destruct (setup_split w _); reflexivity.
Qed.

Lemma configure_checked_calls w st :
  check_v3_upgrade_mode w st = (Done tt, st) ->
  split_calls (configure w st).2 =
  (split_calls st ++
   [{| oci_model_proportion := py_or (config_value st "OCI_NAMESPACE_PROPORTION") (PInt 0);
       oci_namespace_whitelist := py_or (config_value st "OCI_NAMESPACE_WHITELIST") (PSet []);
       v22_namespace_whitelist := py_or (config_value st "V22_NAMESPACE_WHITELIST") (PSet []);
       upgrade_mode := config_value st "V3_UPGRADE_MODE" |}])%list.
Proof.
  intros H. rewrite (configure_checked _ _ H). cbn zeta.
  destruct (setup_split w _).
  - rewrite keeps_calls_after_split. reflexivity.
  - reflexivity.
Qed.

Lemma configure_rejected w st e :
  check_v3_upgrade_mode w st = (Raise e, st) ->
  configure w st = (Raise e, st).
Proof. intros H. unfold configure. apply bind_Raise, H. Qed.

Lemma check_v3_upgrade_mode_accepts w st :
  upgrade_mode_accepted w st -> check_v3_upgrade_mode w st = (Done tt, st).
Proof.
  intros [H | [H | [H | (t & Ht & Hv)]]];
    try (apply check_v3_upgrade_mode_skipped; tauto).
  destruct (IS_TESTING w) eqn:HT; [apply check_v3_upgrade_mode_skipped; tauto |].
  destruct (IS_BUILDING w) eqn:HB; [apply check_v3_upgrade_mode_skipped; tauto |].
  destruct (setup_complete st) eqn:HS; [| apply check_v3_upgrade_mode_skipped; tauto].
  rewrite (check_v3_upgrade_mode_active _ _ HT HB HS). cbn zeta. rewrite Hv. cbn [is_none].
  destruct (_ && _ && _ && _ && _) eqn:E; [| reflexivity].
  exfalso. exact (proj1 (ne_str_modes _) E t eq_refl Ht).
Qed.

Lemma check_v3_upgrade_mode_rejects w st :
  ~ upgrade_mode_accepted w st ->
  exists msg, check_v3_upgrade_mode w st = (Raise (Exception msg), st).
Proof.
  intros Hn.
  destruct (IS_TESTING w) eqn:HT; [contradiction Hn; left; exact HT |].
  destruct (IS_BUILDING w) eqn:HB; [contradiction Hn; right; left; exact HB |].
  destruct (setup_complete st) eqn:HS;
    [| contradiction Hn; right; right; left; exact HS].
  rewrite (check_v3_upgrade_mode_active _ _ HT HB HS). cbn zeta.
  destruct (is_none _); [eexists; reflexivity |].
  destruct (_ && _ && _ && _ && _) eqn:E; [eexists; reflexivity |].
  exfalso. apply Hn. right. right. right.
  destruct (config_value st "V3_UPGRADE_MODE") as [| | | |s| | | |] eqn:Hv;
    try discriminate E.
  exists s. split; [| reflexivity].
  destruct (decide (s ∈ upgrade_modes)) as [Hin|Hout]; [exact Hin |].
  exfalso. assert (true = false) as X; [| discriminate X].
  rewrite <- E. symmetry. apply (proj2 (ne_str_modes _)). intros t [= <-]. exact Hout.
Qed.

Lemma startup_loaded w st :
  load_config w (initial_state w) = (Done tt, st) ->
  startup w (initial_state w) = configure w st.
Proof. intros H. rewrite startup_run, H. reflexivity. Qed.

(** ** Claims about the upgrade flag *)

(** C1: in a process that is neither testing nor building and whose
    [SETUP_COMPLETE] is true, a configured [V3_UPGRADE_MODE] that is none
    of the five values makes start-up end in an exception, with no call
    of [registry_model.setup_split] made (so no phase is put in its
    place); each of the five values gets past the check and is the
    upgrade mode that [setup_split] is called with. *)
Theorem unknown_upgrade_mode_rejected (w : World) (st : app_state) (v : pyval) :
  load_config w (initial_state w) = (Done tt, st) ->
  IS_TESTING w = false -> IS_BUILDING w = false -> setup_complete st = true ->
  config st !! "V3_UPGRADE_MODE" = Some v ->
  ((forall t, v = PStr t -> t ∉ upgrade_modes) ->
     (exists msg, startup w (initial_state w) = (Raise (Exception msg), st))
     /\ split_calls st = [])
  /\ (forall t, t ∈ upgrade_modes -> v = PStr t ->
        check_v3_upgrade_mode w st = (Done tt, st)
        /\ exists p ow vw,
             split_calls (startup w (initial_state w)).2 =
             [SplitArgs p ow vw (PStr t)]).
Proof.
  intros HL HT HB HS Hv.
  assert (config_value st "V3_UPGRADE_MODE" = v) as Hcv
    by (unfold config_value; rewrite Hv; reflexivity).
  rewrite (startup_loaded _ _ HL). split.
  - intros Hout. split; [| exact (load_config_calls _ _ HL)].
    destruct (check_v3_upgrade_mode_rejects w st) as [msg Hmsg].
    + intros [H | [H | [H | (t & Ht & Hm)]]]; try congruence.
      rewrite Hcv in Hm. exact (Hout t Hm Ht).
    + exists msg. apply configure_rejected, Hmsg.
  - intros t Ht ->.
    assert (check_v3_upgrade_mode w st = (Done tt, st)) as Hc.
    { apply check_v3_upgrade_mode_accepts. right. right. right.
      exists t. split; [exact Ht | exact Hcv]. }
    split; [exact Hc |].
    rewrite (configure_checked_calls _ _ Hc), (load_config_calls _ _ HL), Hcv.
    eexists _, _, _. reflexivity.
Qed.

Lemma unknown_upgrade_mode_rejected_witness :
  (exists msg,
     startup (production_world (PStr "rollout"))
       (initial_state (production_world (PStr "rollout")))
     = (Raise (Exception msg), loaded (production_world (PStr "rollout"))))
  /\ exists p ow vw,
       split_calls
         (startup (production_world (PStr "post-oci-rollout"))
            (initial_state (production_world (PStr "post-oci-rollout")))).2
       = [SplitArgs p ow vw (PStr "post-oci-rollout")].
Proof.
  split.
  - refine (proj1 (proj1 (unknown_upgrade_mode_rejected
      (production_world (PStr "rollout")) _ (PStr "rollout") _ _ _ _ _) _)).
    + vm_compute. reflexivity.
    + reflexivity.
    + reflexivity.
    + vm_compute. reflexivity.
    + vm_compute. reflexivity.
    + intros t [= <-]. apply (bool_decide_unpack _). vm_compute. exact I.
  - refine (proj2 (proj2 (unknown_upgrade_mode_rejected
      (production_world (PStr "post-oci-rollout"))
      (loaded (production_world (PStr "post-oci-rollout")))
      (PStr "post-oci-rollout") _ _ _ _ _) "post-oci-rollout" _ _)).
    + vm_compute. reflexivity.
    + reflexivity.
    + reflexivity.
    + vm_compute. reflexivity.
    + vm_compute. reflexivity.
    + apply (bool_decide_unpack _). vm_compute. exact I.
    + reflexivity.
Defined.

(** C2: in a process that is neither testing nor building and whose
    [SETUP_COMPLETE] is true, a [V3_UPGRADE_MODE] that is missing or
    [None] ends start-up in the exception of line 117, raised before any
    call of [registry_model.setup_split]. *)
Theorem missing_upgrade_mode_fatal (w : World) (st : app_state) :
  load_config w (initial_state w) = (Done tt, st) ->
  IS_TESTING w = false -> IS_BUILDING w = false -> setup_complete st = true ->
  config_value st "V3_UPGRADE_MODE" = PNone ->
  startup w (initial_state w) =
    (Raise (Exception
       "Configuration flag `V3_UPGRADE_MODE` must be set. Please check the upgrade docs"),
     st)
  /\ split_calls (startup w (initial_state w)).2 = [].
Proof.
  intros HL HT HB HS Hv.
  assert (configure w st =
    (Raise (Exception
       "Configuration flag `V3_UPGRADE_MODE` must be set. Please check the upgrade docs"),
     st)) as Hc.
  { apply configure_rejected.
    rewrite (check_v3_upgrade_mode_active _ _ HT HB HS). cbn zeta.
    rewrite Hv. reflexivity. }
  rewrite (startup_loaded _ _ HL), Hc. split; [reflexivity |].
  exact (load_config_calls _ _ HL).
Qed.

Lemma missing_upgrade_mode_fatal_witness :
  startup unflagged_world (initial_state unflagged_world) =
    (Raise (Exception
       "Configuration flag `V3_UPGRADE_MODE` must be set. Please check the upgrade docs"),
     loaded unflagged_world)
  /\ split_calls (startup unflagged_world (initial_state unflagged_world)).2 = [].
Proof.
  apply (missing_upgrade_mode_fatal unflagged_world (loaded unflagged_world)).
  - vm_compute. reflexivity.
  - reflexivity.
  - reflexivity.
  - vm_compute. reflexivity.
  - vm_compute. reflexivity.
Defined.

(** C8: when the process is testing or building, or [SETUP_COMPLETE] is
    not true, lines 114-128 raise nothing whatever [V3_UPGRADE_MODE]
    holds, and start-up goes on to call [registry_model.setup_split] with
    that value, be it [None] or an unknown string, as the upgrade mode:
    what start-up does next is decided by that call and the lines after
    it. *)
Theorem upgrade_mode_unchecked_elsewhere (w : World) (st : app_state) :
  load_config w (initial_state w) = (Done tt, st) ->
  IS_TESTING w = true \/ IS_BUILDING w = true \/ setup_complete st = false ->
  check_v3_upgrade_mode w st = (Done tt, st)
  /\ exists p ow vw,
       let a := SplitArgs p ow vw (config_value st "V3_UPGRADE_MODE") in
       split_calls (startup w (initial_state w)).2 = [a]
       /\ startup w (initial_state w) =
          match setup_split w a with
          | Done _ => after_split w (log_call a st)
          | Raise e => (Raise e, log_call a st)
          end.
Proof.
  intros HL Hmode.
  assert (check_v3_upgrade_mode w st = (Done tt, st)) as Hc
    by (apply check_v3_upgrade_mode_skipped, Hmode).
  split; [exact Hc |].
  rewrite (startup_loaded _ _ HL). eexists _, _, _. cbn zeta. split.
  - rewrite (configure_checked_calls _ _ Hc), (load_config_calls _ _ HL).
    reflexivity.
  - rewrite (configure_checked _ _ Hc). reflexivity.
Qed.

Lemma upgrade_mode_unchecked_elsewhere_witness :
  let w := sample_world true false ∅
             {[ "SETUP_COMPLETE" := PBool true; "V3_UPGRADE_MODE" := PStr "rollout" ]} in
  check_v3_upgrade_mode w (loaded w) = (Done tt, loaded w)
  /\ exists p ow vw,
       let a := SplitArgs p ow vw (config_value (loaded w) "V3_UPGRADE_MODE") in
       split_calls (startup w (initial_state w)).2 = [a]
       /\ startup w (initial_state w) =
          match setup_split w a with
          | Done _ => after_split w (log_call a (loaded w))
          | Raise e => (Raise e, log_call a (loaded w))
          end.
Proof.
  intros w. apply (upgrade_mode_unchecked_elsewhere w (loaded w)).
  - vm_compute. reflexivity.
  - left. reflexivity.
Defined.

(** ** Claims about the split of the registry model *)

Lemma out_of_unit_interval_truthy p : out_of_unit_interval p -> truthy p = true.
Proof.
  destruct p as [| | z | q | | | | |]; simpl; try contradiction.
  - intros H. apply negb_true_iff, Z.eqb_neq. lia.
  - unfold Qlt. simpl. intros H. apply negb_true_iff, Z.eqb_neq. lia.
Qed.

(** C3, as stated, fails: [oversized_world] is a production deployment
    in the background phase with [OCI_NAMESPACE_PROPORTION] set to 2, and
    its start-up calls [registry_model.setup_split] with the proportion
    2. *)
Lemma out_of_range_proportion_reaches_split :
  ~ (forall (w : World) (st : app_state) (p : pyval),
       load_config w (initial_state w) = (Done tt, st) ->
       config st !! "OCI_NAMESPACE_PROPORTION" = Some p ->
       out_of_unit_interval p ->
       (exists e, (startup w (initial_state w)).1 = Raise e)
       /\ forall a, a ∈ split_calls (startup w (initial_state w)).2 ->
                    oci_model_proportion a <> p).
Proof.
  intros H.
  destruct (H oversized_world (loaded oversized_world) (PInt 2)) as [_ Hno].
  - vm_compute. reflexivity.
  - vm_compute. reflexivity.
  - simpl. lia.
  - apply (Hno (SplitArgs (PInt 2) (PSet []) (PSet []) (PStr "background"))).
    + vm_compute. apply list_elem_of_here.
    + reflexivity.
Qed.

(** C3, amended: the start-up code has no range check of its own.  A
    configured proportion outside the interval from 0 to 1 is not
    replaced by the default 0, and when the upgrade flag gets past its
    check, [registry_model.setup_split] is called once, with that
    proportion unchanged; start-up then ends in an exception at this
    point exactly when [setup_split] raises one. *)
Theorem proportion_passed_unchanged (w : World) (st : app_state) (p : pyval) :
  load_config w (initial_state w) = (Done tt, st) ->
  config st !! "OCI_NAMESPACE_PROPORTION" = Some p ->
  out_of_unit_interval p ->
  upgrade_mode_accepted w st ->
  py_or p (PInt 0) = p
  /\ exists ow vw m,
       let a := SplitArgs p ow vw m in
       split_calls (startup w (initial_state w)).2 = [a]
       /\ startup w (initial_state w) =
          match setup_split w a with
          | Done _ => after_split w (log_call a st)
          | Raise e => (Raise e, log_call a st)
          end.
Proof.
  intros HL Hp Hout Hacc.
  assert (py_or p (PInt 0) = p) as Hor
    by (unfold py_or; rewrite (out_of_unit_interval_truthy _ Hout); reflexivity).
  split; [exact Hor |].
  pose proof (check_v3_upgrade_mode_accepts _ _ Hacc) as Hc.
  assert (config_value st "OCI_NAMESPACE_PROPORTION" = p) as Hcv
    by (unfold config_value; rewrite Hp; reflexivity).
  rewrite (startup_loaded _ _ HL). eexists _, _, _. cbn zeta. split.
  - rewrite (configure_checked_calls _ _ Hc), (load_config_calls _ _ HL), Hcv, Hor.
    reflexivity.
  - rewrite (configure_checked _ _ Hc). cbn zeta. rewrite Hcv, Hor. reflexivity.
Qed.

Lemma proportion_passed_unchanged_witness :
  py_or (PInt 2) (PInt 0) = PInt 2
  /\ exists ow vw m,
       let a := SplitArgs (PInt 2) ow vw m in
       split_calls (startup oversized_world (initial_state oversized_world)).2 = [a]
       /\ startup oversized_world (initial_state oversized_world) =
          match setup_split oversized_world a with
          | Done _ => after_split oversized_world (log_call a (loaded oversized_world))
          | Raise e => (Raise e, log_call a (loaded oversized_world))
          end.
Proof.
  apply (proportion_passed_unchanged oversized_world (loaded oversized_world) (PInt 2)).
  - vm_compute. reflexivity.
  - vm_compute. reflexivity.
  - simpl. lia.
  - right. right. right. exists "background". split.
    + apply (bool_decide_unpack _). vm_compute. exact I.
    + vm_compute. reflexivity.
Defined.

(** ** Start-ups that get past the check *)

Lemma check_v3_upgrade_mode_state w st : (check_v3_upgrade_mode w st).2 = st.
Proof.
  unfold check_v3_upgrade_mode.
  destruct (negb (IS_TESTING w) && negb (IS_BUILDING w)); cbn.
  - destruct (truthy _); cbn; [| reflexivity].
    destruct (is_none _); [reflexivity |].
    destruct (ne_str _ _ && _ && _ && _ && _); reflexivity.
  - reflexivity.
Qed.

Lemma upgrade_mode_accepted_dec w st :
  upgrade_mode_accepted w st \/ ~ upgrade_mode_accepted w st.
Proof.
  unfold upgrade_mode_accepted.
  destruct (IS_TESTING w); [left; left; reflexivity |].
  destruct (IS_BUILDING w); [left; right; left; reflexivity |].
  destruct (setup_complete st); [| left; right; right; left; reflexivity].
  destruct (config_value st "V3_UPGRADE_MODE") as [| | | |s| | | |] eqn:E;
    try (right; intros [H | [H | [H | (t & _ & H)]]]; discriminate H).
  destruct (decide (s ∈ upgrade_modes)) as [Hin | Hout].
  - left. right. right. right. exists s. split; [exact Hin | reflexivity].
  - right. intros [H | [H | [H | (t & Ht & [= ->])]]]; try discriminate H.
    exact (Hout Ht).
Qed.

Lemma check_v3_upgrade_mode_done w st u st' :
  check_v3_upgrade_mode w st = (Done u, st') ->
  upgrade_mode_accepted w st /\ st' = st.
Proof.
  intros H. split.
  - destruct (upgrade_mode_accepted_dec w st) as [Ha | Hn]; [exact Ha |].
    destruct (check_v3_upgrade_mode_rejects _ _ Hn) as [msg Hmsg].
    rewrite Hmsg in H. discriminate H.
  - pose proof (check_v3_upgrade_mode_state w st) as Hs. rewrite H in Hs.
    exact Hs.
Qed.

Lemma configure_done_inv w st st' :
  configure w st = (Done tt, st') ->
  upgrade_mode_accepted w st
  /\ setup_split w (configured_split st) = Done tt
  /\ after_split w (log_call (configured_split st) st) = (Done tt, st').
Proof.
  intros H. unfold configure in H.
  apply bind_Done_inv in H as (u & st1 & Hc & H).
  apply check_v3_upgrade_mode_done in Hc as [Hacc ->].
  apply bind_Done_inv in H as (u' & st2 & Hs & H).
  rewrite split_registry_model_run in Hs. cbn zeta in Hs.
  injection Hs as Hs <-. destruct u'.
  split; [exact Hacc |]. split; [exact Hs | exact H].
Qed.

(** C7: with [OCI_NAMESPACE_PROPORTION], [OCI_NAMESPACE_WHITELIST] and
    [V22_NAMESPACE_WHITELIST] missing or [None], a start-up that gets
    past the check of the upgrade flag calls
    [registry_model.setup_split] exactly once, with proportion 0 and two
    empty sets.  In particular every start-up that reaches the end of the
    configuration lines, and so every process that goes on to accept
    traffic, has made this one call, and the call has succeeded. *)
Theorem default_split_installed (w : World) (st : app_state) :
  load_config w (initial_state w) = (Done tt, st) ->
  config_value st "OCI_NAMESPACE_PROPORTION" = PNone ->
  config_value st "OCI_NAMESPACE_WHITELIST" = PNone ->
  config_value st "V22_NAMESPACE_WHITELIST" = PNone ->
  let a := SplitArgs (PInt 0) (PSet []) (PSet []) (config_value st "V3_UPGRADE_MODE") in
  (upgrade_mode_accepted w st ->
     split_calls (startup w (initial_state w)).2 = [a])
  /\ (forall st',
        startup w (initial_state w) = (Done tt, st') ->
        split_calls st' = [a] /\ setup_split w a = Done tt).
Proof.
  intros HL Hp Ho Hv a.
  assert (configured_split st = a) as Ha
    by (unfold configured_split; rewrite Hp, Ho, Hv; reflexivity).
  assert (upgrade_mode_accepted w st ->
          split_calls (startup w (initial_state w)).2 = [a]) as Hcalls.
  { intros Hacc. pose proof (check_v3_upgrade_mode_accepts _ _ Hacc) as Hc.
    rewrite (startup_loaded _ _ HL), (configure_checked_calls _ _ Hc),
      (load_config_calls _ _ HL).
    fold (configured_split st). rewrite Ha. reflexivity. }
  split; [exact Hcalls |].
  intros st' H. pose proof H as H'. rewrite (startup_loaded _ _ HL) in H'.
  apply configure_done_inv in H' as (Hacc & Hs & _).
  rewrite Ha in Hs. split; [| exact Hs].
  pose proof (Hcalls Hacc) as Hc. rewrite H in Hc. exact Hc.
Qed.

Lemma default_split_installed_witness :
  let w := production_world (PStr "background") in
  let a := SplitArgs (PInt 0) (PSet []) (PSet []) (PStr "background") in
  (startup w (initial_state w)).1 = Done tt
  /\ split_calls (startup w (initial_state w)).2 = [a]
  /\ setup_split w a = Done tt.
Proof.
  intros w a. split; [vm_compute; reflexivity |].
  refine (proj2 (default_split_installed w (loaded w) _ _ _ _)
            (startup w (initial_state w)).2 _).
  - vm_compute. reflexivity.
  - vm_compute. reflexivity.
  - vm_compute. reflexivity.
  - vm_compute. reflexivity.
  - vm_compute. reflexivity.
Defined.

(** ** The override from the environment *)

Lemma set_config_same st : set_config (config st) st = st.
Proof. destruct st. reflexivity. Qed.

Lemma update_items_other (kvs : list (string * pyval)) (c : gmap string pyval) k :
  k ∉ kvs.*1 ->
  fold_left (fun acc kv => <[kv.1 := kv.2]> acc) kvs c !! k = c !! k.
Proof.
  revert c. induction kvs as [| [k0 v0] kvs IH]; intros c Hk; simpl.
  - reflexivity.
  - simpl in Hk. apply not_elem_of_cons in Hk as [Hne Hk].
    rewrite (IH _ Hk). apply lookup_insert_ne. congruence.
Qed.

Lemma update_items_item (kvs : list (string * pyval)) (c : gmap string pyval) k v :
  NoDup kvs.*1 -> (k, v) ∈ kvs ->
  fold_left (fun acc kv => <[kv.1 := kv.2]> acc) kvs c !! k = Some v.
Proof.
  revert c. induction kvs as [| [k0 v0] kvs IH]; intros c Hnd Hin; simpl.
  - by apply elem_of_nil in Hin.
  - simpl in Hnd. apply NoDup_cons in Hnd as [Hfresh Hnd].
    apply elem_of_cons in Hin as [[= -> ->] | Hin].
    + rewrite (update_items_other _ _ _ Hfresh). apply lookup_insert_eq.
    + apply (IH _ Hnd Hin).
Qed.

Lemma environ_override_run w st v c :
  json_loads w (default "{}" (environ w !! OVERRIDE_CONFIG_KEY)) = Done v ->
  dict_update w (config st) v = Done c ->
  environ_override w st = (Done tt, set_config c st).
Proof.
  intros Hj Hu. unfold environ_override. cbn. rewrite Hj. cbn. rewrite Hu.
  reflexivity.
Qed.

Lemma fix_remote_address_run st :
  exists st', fix_remote_address st = (Done tt, st') /\ config st' = config st.
Proof.
  unfold fix_remote_address. cbn. destruct (truthy _); eexists; split; reflexivity.
Qed.

(** C9: with [QUAY_OVERRIDE_CONFIG] unset the override step merges the
    empty object and leaves the state, hence every key of [app.config],
    as it was; with the variable set to a JSON object the step stores the
    value of every key of that object and leaves all other keys as they
    were; and since the step runs on what the configuration object and
    the provider have loaded, the values of the environment are the ones
    found in the loaded configuration. *)
Theorem environ_override_frame (w : World) (st : app_state) :
  (environ w !! OVERRIDE_CONFIG_KEY = None ->
   json_loads w "{}" = Done (PDict []) ->
   environ_override w st = (Done tt, st))
  /\ (forall s kvs,
        environ w !! OVERRIDE_CONFIG_KEY = Some s ->
        json_loads w s = Done (PDict kvs) ->
        NoDup kvs.*1 ->
        (exists c,
           environ_override w st = (Done tt, set_config c st)
           /\ (forall k v, (k, v) ∈ kvs -> c !! k = Some v)
           /\ (forall k, k ∉ kvs.*1 -> c !! k = config st !! k))
        /\ forall st0,
             (instantiate_config w ;; load_override_config w) st0 = (Done tt, st) ->
             exists st',
               load_config w st0 = (Done tt, st')
               /\ (forall k v, (k, v) ∈ kvs -> config st' !! k = Some v)
               /\ (forall k, k ∉ kvs.*1 -> config st' !! k = config st !! k)).
Proof.
  split.
  - intros He Hj.
    rewrite (environ_override_run w st (PDict []) (config st)).
    + rewrite set_config_same. reflexivity.
    + rewrite He. exact Hj.
    + reflexivity.
  - intros s kvs He Hj Hnd.
    assert (environ_override w st =
            (Done tt, set_config
               (fold_left (fun acc kv => <[kv.1 := kv.2]> acc) kvs (config st)) st))
      as Hrun.
    { apply (environ_override_run w st (PDict kvs)).
      - rewrite He. exact Hj.
      - reflexivity. }
    split.
    + eexists. split; [exact Hrun |]. split.
      * intros k v Hin. apply (update_items_item _ _ _ _ Hnd Hin).
      * intros k Hk. apply (update_items_other _ _ _ Hk).
    + intros st0 H0.
      destruct (fix_remote_address_run
                  (set_config
                     (fold_left (fun acc kv => <[kv.1 := kv.2]> acc) kvs (config st)) st))
        as (st' & Hfix & Hcfg).
      exists st'. split; [| split].
      * unfold load_config.
        apply bind_Done_inv in H0 as (a & st1 & H1 & H2).
        rewrite (bind_Done _ _ _ _ _ H1), (bind_Done _ _ _ _ _ H2).
        rewrite (bind_Done _ _ _ _ _ Hrun). exact Hfix.
      * intros k v Hin. rewrite Hcfg. simpl.
        apply (update_items_item _ _ _ _ Hnd Hin).
      * intros k Hk. rewrite Hcfg. simpl. apply (update_items_other _ _ _ Hk).
Qed.

Lemma environ_override_frame_witness :
  environ_override unflagged_world (initial_state unflagged_world)
  = (Done tt, initial_state unflagged_world)
  /\ exists st',
       load_config overridden_world (initial_state overridden_world) = (Done tt, st')
       /\ config st' !! "PROXY_COUNT" = Some (PInt 2)
       /\ config st' !! "SETUP_COMPLETE" = Some (PBool true).
Proof.
  split.
  - apply (proj1 (environ_override_frame unflagged_world (initial_state unflagged_world))).
    + vm_compute. reflexivity.
    + vm_compute. reflexivity.
  - destruct (proj2 (environ_override_frame overridden_world
        ((instantiate_config overridden_world ;; load_override_config overridden_world)
           (initial_state overridden_world)).2)
        sample_override
        [("PROXY_COUNT", PInt 2); ("V3_UPGRADE_MODE", PStr "complete")])
      as [_ Hload].
    + vm_compute. reflexivity.
    + vm_compute. reflexivity.
    + apply (bool_decide_unpack _). vm_compute. exact I.
    + destruct (Hload (initial_state overridden_world)) as (st' & H1 & H2 & H3).
      * vm_compute. reflexivity.
      * exists st'. split; [exact H1 |]. split.
        -- apply H2. apply list_elem_of_here.
        -- rewrite H3.
           ++ vm_compute. reflexivity.
           ++ apply (bool_decide_unpack _). vm_compute. exact I.
Defined.

(** ** The secret key *)

Lemma secret_key_run w st :
  secret_key w st =
  match config st !! "SECRET_KEY" with
  | None => (Raise (KeyError "SECRET_KEY"), st)
  | Some PNone =>
      match generate_secret_key w with
      | Done fresh =>
          (Done tt, set_config (<["SECRET_KEY" := PStr fresh]> (config st)) st)
      | Raise e => (Raise e, st)
      end
  | Some _ => (Done tt, st)
  end.
Proof.
  unfold secret_key, config_item, bind, get_state, lift.
  destruct (config st !! "SECRET_KEY") as [[]|];
    try destruct (generate_secret_key w); reflexivity.
Qed.

Lemma secret_key_set w st st' :
  secret_key w st = (Done tt, st') ->
  exists v, config st' !! "SECRET_KEY" = Some v /\ v <> PNone.
Proof.
  rewrite secret_key_run.
  destruct (config st !! "SECRET_KEY") as [v|] eqn:E; [| discriminate].
  destruct v; try (intros [= <-]; eexists; split; [exact E | discriminate]).
  destruct (generate_secret_key w) as [fresh|e]; [| discriminate].
  intros [= <-]. exists (PStr fresh). split; [| discriminate].
  simpl. apply lookup_insert_eq.
Qed.

Lemma session_cookie_other st st' k :
  session_cookie st = (Done tt, st') ->
  k <> "SESSION_COOKIE_SECURE" ->
  config st' !! k = config st !! k.
Proof.
  unfold session_cookie, config_item, bind at 1 2, get_state.
  destruct (config st !! "PREFERRED_URL_SCHEME") as [scheme|]; cbn; [| discriminate].
  destruct (eq_str scheme "https"); cbn.
  - destruct (negb (truthy _)); cbn; intros [= <-] Hk; [| reflexivity].
    simpl. apply lookup_insert_ne. congruence.
  - intros [= <-] _. reflexivity.
Qed.

(** C10: a start-up that reaches the end of the configuration lines
    leaves a [SECRET_KEY] that is not [None]: the step of lines 145-147
    keeps a key that is set, and replaces a [None] by the key that
    [generate_secret_key()] returns (start-up ends there if that call
    fails); the lines that follow do not touch the key. *)
Theorem secret_key_never_none (w : World) :
  (forall st fresh,
     config st !! "SECRET_KEY" = Some PNone ->
     generate_secret_key w = Done fresh ->
     secret_key w st =
     (Done tt, set_config (<["SECRET_KEY" := PStr fresh]> (config st)) st))
  /\ (forall st v, config st !! "SECRET_KEY" = Some v -> v <> PNone ->
        secret_key w st = (Done tt, st))
  /\ (forall st0 st', startup w st0 = (Done tt, st') ->
        exists v, config st' !! "SECRET_KEY" = Some v /\ v <> PNone).
Proof.
  split; [| split].
  - intros st fresh H Hg. rewrite secret_key_run, H, Hg. reflexivity.
  - intros st v H Hv. rewrite secret_key_run, H.
    destruct v; try reflexivity. contradiction Hv. reflexivity.
  - intros st0 st' H. unfold startup in H.
    apply bind_Done_inv in H as (? & st1 & _ & H). unfold configure in H.
    apply bind_Done_inv in H as (? & st2 & _ & H).
    apply bind_Done_inv in H as (? & st3 & _ & H). unfold after_split in H.
    apply bind_Done_inv in H as (? & st4 & _ & H).
    apply bind_Done_inv in H as ([] & st5 & Hkey & Hcookie).
    destruct (secret_key_set _ _ _ Hkey) as (v & Hv & Hne).
    exists v. split; [| exact Hne].
    rewrite (session_cookie_other _ _ _ Hcookie); [exact Hv | discriminate].
Qed.

Lemma secret_key_never_none_witness :
  let w := production_world (PStr "complete") in
  config (loaded w) !! "SECRET_KEY" = Some PNone
  /\ config (startup w (initial_state w)).2 !! "SECRET_KEY"
     = Some (PStr "30071996471356")
  /\ exists v,
       config (startup w (initial_state w)).2 !! "SECRET_KEY" = Some v
       /\ v <> PNone.
Proof.
  intros w. split; [vm_compute; reflexivity |]. split; [vm_compute; reflexivity |].
  apply (proj2 (proj2 (secret_key_never_none w)) (initial_state w)).
  vm_compute. reflexivity.
Defined.

(** ** The routing controller *)

(** The scenarios of section 8 of the design document, run on the
    model. *)
Example dual_write_scenario :
  Router.route Router.sample_bucket
    {| Router.policy := Router.full_policy;
       Router.phase := Router.ProductionTransition;
       Router.prior := Router.ProductionTransition |} "acme"
  = {| Router.primary := Router.Modern; Router.secondary := Some Router.Legacy;
       Router.readTranslation := false |}.
Proof. vm_compute. reflexivity. Qed.

Example rollback_read_translation :
  Router.readTranslation
    (Router.route Router.sample_bucket
       {| Router.policy := Router.full_policy;
          Router.phase := Router.RollbackCompat;
          Router.prior := Router.ProductionTransition |} "acme")
  = true.
Proof. vm_compute. reflexivity. Qed.

Example boundary_proportion :
  Router.decide Router.sample_bucket Router.sample_policy "beta" = Router.Modern
  /\ Router.decide Router.sample_bucket Router.sample_policy "gamma" = Router.Legacy.
Proof. split; vm_compute; reflexivity. Qed.

Lemma legal_transition_chain (from to : Router.MigrationPhase) :
  from <> to ->
  (Router.legal_transition from to = true
   <-> Router.forward from to
       \/ to = Router.RollbackCompat
       \/ (from = Router.RollbackCompat /\ to = Router.ProductionTransition)).
Proof.
  intros Hne. split.
  - destruct from, to; simpl; intros H;
      try discriminate H; try (contradiction Hne; reflexivity);
      try (right; left; reflexivity);
      try (right; right; split; reflexivity);
      left; unfold Router.forward; simpl; eexists _, _;
      (split; [reflexivity | split; [reflexivity | lia]]).
  - intros [(i & j & Hi & Hj & Hlt) | [-> | [-> ->]]].
    + destruct from, to; simpl in *; try reflexivity;
        try discriminate Hi; try discriminate Hj;
        injection Hi as <-; injection Hj as <-; lia.
    + destruct from; reflexivity.
    + reflexivity.
Qed.

Lemma reload_illegal (snap : Router.Snapshot) pol to :
  Router.legal_transition (Router.phase snap) to = false ->
  Router.reload snap pol to = (snap, Some Router.IllegalTransition).
Proof. intros H. unfold Router.reload. rewrite H. reflexivity. Qed.

(** C4: a reload checks the requested phase against the current one.
    From Complete to ProductionTransition it fails with the
    configuration error and the Complete snapshot stays active; from
    Background to RollbackCompat and from RollbackCompat to
    ProductionTransition it succeeds and installs the new pair; from
    RollbackCompat to PostCutoverRollout it fails.  Between two different
    phases a transition is legal exactly when it goes forward along the
    chain, or into RollbackCompat, or from RollbackCompat to
    ProductionTransition, and every illegal request leaves the snapshot
    as it was. *)
Theorem reload_transition_legality
    (pol newPolicy : Router.RolloutPolicy) (pr : Router.MigrationPhase) :
  let snapshot ph := {| Router.policy := pol; Router.phase := ph; Router.prior := pr |} in
  Router.reload (snapshot Router.Complete) newPolicy Router.ProductionTransition
    = (snapshot Router.Complete, Some Router.IllegalTransition)
  /\ Router.reload (snapshot Router.Background) newPolicy Router.RollbackCompat
     = ({| Router.policy := newPolicy; Router.phase := Router.RollbackCompat;
           Router.prior := Router.Background |}, None)
  /\ Router.reload (snapshot Router.RollbackCompat) newPolicy Router.ProductionTransition
     = ({| Router.policy := newPolicy; Router.phase := Router.ProductionTransition;
           Router.prior := Router.ProductionTransition |}, None)
  /\ Router.reload (snapshot Router.RollbackCompat) newPolicy Router.PostCutoverRollout
     = (snapshot Router.RollbackCompat, Some Router.IllegalTransition)
  /\ (forall from to, from <> to ->
        (Router.legal_transition from to = true
         <-> Router.forward from to
             \/ to = Router.RollbackCompat
             \/ (from = Router.RollbackCompat /\ to = Router.ProductionTransition)))
  /\ (forall snap to,
        Router.legal_transition (Router.phase snap) to = false ->
        Router.reload snap newPolicy to = (snap, Some Router.IllegalTransition)).
Proof.
  intros snapshot.
  split; [reflexivity |]. split; [reflexivity |].
  split; [reflexivity |]. split; [reflexivity |]. split.
  - intros from to Hne. apply legal_transition_chain, Hne.
  - intros snap to H. apply reload_illegal, H.
Qed.

Lemma reload_transition_legality_witness :
  Router.reload
    {| Router.policy := Router.sample_policy; Router.phase := Router.Complete;
       Router.prior := Router.Complete |}
    Router.closed_policy Router.ProductionTransition
  = ({| Router.policy := Router.sample_policy; Router.phase := Router.Complete;
        Router.prior := Router.Complete |}, Some Router.IllegalTransition)
  /\ Router.legal_transition Router.Background Router.Complete = true
  /\ Router.reload
       {| Router.policy := Router.sample_policy; Router.phase := Router.PostCutoverRollout;
          Router.prior := Router.PostCutoverRollout |}
       Router.closed_policy Router.Background
     = ({| Router.policy := Router.sample_policy; Router.phase := Router.PostCutoverRollout;
           Router.prior := Router.PostCutoverRollout |}, Some Router.IllegalTransition).
Proof.
  destruct (reload_transition_legality Router.sample_policy Router.closed_policy
              Router.Complete) as (H1 & _ & _ & _ & Hchain & Hkeep).
  split; [exact H1 |]. split.
  - apply (proj2 (Hchain Router.Background Router.Complete ltac:(discriminate))).
    left. exists 0%nat, 3%nat. split; [reflexivity |]. split; [reflexivity | lia].
  - apply Hkeep. reflexivity.
Defined.

(** C5: once the active phase is Complete, every tenant is routed to
    Modern, and to Modern alone: the decision does not depend on the
    proportion, on the allow-lists or on the classifier. *)
Theorem complete_routes_modern
    (bucket : Router.TenantId -> Q) (snap : Router.Snapshot) (t : Router.TenantId) :
  Router.phase snap = Router.Complete ->
  Router.primary (Router.route bucket snap t) = Router.Modern
  /\ Router.route bucket snap t
     = {| Router.primary := Router.Modern; Router.secondary := None;
          Router.readTranslation := false |}.
Proof.
  intros H. unfold Router.route. rewrite H. split; reflexivity.
Qed.

Lemma complete_routes_modern_witness :
  let snap := {| Router.policy := Router.closed_policy; Router.phase := Router.Complete;
                 Router.prior := Router.Complete |} in
  Router.decide Router.sample_bucket Router.closed_policy "gamma" = Router.Legacy
  /\ Router.primary (Router.route Router.sample_bucket snap "gamma") = Router.Modern.
Proof.
  intros snap. split.
  - vm_compute. reflexivity.
  - apply (complete_routes_modern Router.sample_bucket snap "gamma"). reflexivity.
Defined.

Lemma decide_modern_override
    (bucket : Router.TenantId -> Q) (pol : Router.RolloutPolicy) (t : Router.TenantId) :
  t ∈ Router.modernOverrides pol ->
  Router.decide bucket pol t = Router.Modern.
Proof.
  intros H. unfold Router.decide. rewrite (bool_decide_eq_true_2 _ H). reflexivity.
Qed.

Lemma make_policy_in_range (p : Q) (modern second : gset Router.TenantId) :
  (0 <= p)%Q -> (p <= 1)%Q ->
  Router.make_policy p modern second
  = inr {| Router.proportion := p; Router.modernOverrides := modern;
           Router.secondarySchemaOverrides := second |}.
Proof.
  intros H0 H1. unfold Router.make_policy.
  rewrite (proj2 (Qle_bool_iff 0 p) H0), (proj2 (Qle_bool_iff p 1) H1).
  reflexivity.
Qed.

(** C6: for every proportion from 0 to 1 the policy can be built, and it
    decides Modern for every tenant of its modernOverrides, whatever the
    bucket of the tenant; the membership test comes first. *)
Theorem modern_override_wins
    (bucket : Router.TenantId -> Q) (p : Q)
    (modern second : gset Router.TenantId) (t : Router.TenantId) :
  (0 <= p)%Q -> (p <= 1)%Q ->
  t ∈ modern ->
  exists pol,
    Router.make_policy p modern second = inr pol
    /\ Router.proportion pol = p
    /\ Router.decide bucket pol t = Router.Modern.
Proof.
  intros H0 H1 Ht. eexists. split; [apply make_policy_in_range; assumption |].
  split; [reflexivity |]. apply decide_modern_override. exact Ht.
Qed.

Lemma modern_override_wins_witness :
  Router.decide Router.sample_bucket Router.sample_policy "gamma" = Router.Legacy
  /\ exists pol,
       Router.make_policy 0 {[ "beta" ]} ∅ = inr pol
       /\ Router.proportion pol = 0%Q
       /\ Router.decide Router.sample_bucket pol "beta" = Router.Modern.
Proof.
  split.
  - vm_compute. reflexivity.
  - apply (modern_override_wins Router.sample_bucket 0 {[ "beta" ]} ∅ "beta").
    + discriminate.
    + discriminate.
    + apply (bool_decide_unpack _). vm_compute. exact I.
Defined.

(** * Further properties of the start-up code *)

(** ** What the configuration stage writes *)

Lemma same_but_refl keys st : same_but keys st st.
Proof. repeat split. Qed.

Lemma same_but_trans keys st1 st2 st3 :
  same_but keys st1 st2 -> same_but keys st2 st3 -> same_but keys st1 st3.
Proof.
  intros (T1 & P1 & C1) (T2 & P2 & C2). repeat split.
  - rewrite T2. exact T1.
  - rewrite P2. exact P1.
  - intros k Hk. rewrite (C2 k Hk). apply (C1 k Hk).
Qed.

Lemma touches_only_bind {A B} keys (m : M A) (k : A -> M B) :
  touches_only keys m -> (forall a, touches_only keys (k a)) ->
  touches_only keys (bind m k).
Proof.
  intros Hm Hk st. rewrite bind_run. specialize (Hm st).
  destruct (m st) as [[a|e] st1]; simpl in *.
  - apply (same_but_trans _ _ _ _ Hm), Hk.
  - exact Hm.
Qed.

Lemma touches_only_pure {A} keys (m : M A) :
  (forall st, (m st).2 = st) -> touches_only keys m.
Proof. intros H st. rewrite H. apply same_but_refl. Qed.

Lemma touches_only_config_item keys key : touches_only keys (config_item key).
Proof.
  apply touches_only_pure. intros st. unfold config_item, bind, get_state.
  destruct (config st !! key); reflexivity.
Qed.

Lemma touches_only_config_set keys key v :
  key ∈ keys -> touches_only keys (config_set key v).
Proof.
  intros Hin st. repeat split. intros k Hk. simpl.
  apply lookup_insert_ne. intros ->. exact (Hk Hin).
Qed.

Lemma touches_only_check_v3_upgrade_mode keys w :
  touches_only keys (check_v3_upgrade_mode w).
Proof.
  apply touches_only_pure. intros st. unfold check_v3_upgrade_mode.
  destruct (negb (IS_TESTING w) && negb (IS_BUILDING w)); cbn.
  - destruct (truthy _); cbn; [| reflexivity].
    destruct (is_none _); [reflexivity |].
    destruct (ne_str _ _ && _ && _ && _ && _); reflexivity.
  - reflexivity.
Qed.

Lemma touches_only_split_registry_model keys w :
  touches_only keys (split_registry_model w).
Proof. intros st. rewrite split_registry_model_run. repeat split. Qed.

Lemma touches_only_storage_preference w :
  touches_only configure_keys (storage_preference w).
Proof.
  unfold storage_preference. destruct (py_split _).
  - apply touches_only_pure. reflexivity.
  - apply touches_only_config_set. set_solver.
Qed.

Lemma touches_only_secret_key w : touches_only configure_keys (secret_key w).
Proof.
  unfold secret_key. apply touches_only_bind; [apply touches_only_config_item |].
  intros k. destruct (is_none k).
  - apply touches_only_bind; [apply touches_only_pure; reflexivity |].
    intros fresh. apply touches_only_config_set. set_solver.
  - apply touches_only_pure. reflexivity.
Qed.

Lemma touches_only_session_cookie : touches_only configure_keys session_cookie.
Proof.
  unfold session_cookie. apply touches_only_bind; [apply touches_only_config_item |].
  intros scheme. destruct (eq_str scheme "https").
  - apply touches_only_bind; [apply touches_only_pure; reflexivity |].
    intros force. destruct (negb (truthy force)).
    + apply touches_only_config_set. set_solver.
    + apply touches_only_pure. reflexivity.
  - apply touches_only_pure. reflexivity.
Qed.

Lemma touches_only_after_split w : touches_only configure_keys (after_split w).
Proof.
  unfold after_split.
  apply touches_only_bind; [apply touches_only_storage_preference | intros _].
  apply touches_only_bind; [apply touches_only_secret_key | intros _].
  apply touches_only_session_cookie.
Qed.

Lemma touches_only_configure w : touches_only configure_keys (configure w).
Proof.
  unfold configure.
  apply touches_only_bind; [apply touches_only_check_v3_upgrade_mode | intros _].
  apply touches_only_bind; [apply touches_only_split_registry_model | intros _].
  apply touches_only_after_split.
Qed.

(** X1: however lines 112-154 end, normally or by an exception, they
    have written no configuration key other than
    [DISTRIBUTED_STORAGE_PREFERENCE], [SECRET_KEY] and
    [SESSION_COOKIE_SECURE], and they have left the teardown handlers and
    the proxy fix alone; in particular neither the check of the upgrade
    flag nor the split of the registry model changes [app.config]. *)
Theorem configure_frame (w : World) (st : app_state) (k : string) :
  k ∉ configure_keys ->
  config (configure w st).2 !! k = config st !! k
  /\ teardown_handlers (configure w st).2 = teardown_handlers st
  /\ proxy_fix (configure w st).2 = proxy_fix st
  /\ config (split_registry_model w st).2 = config st
  /\ (check_v3_upgrade_mode w st).2 = st.
Proof.
  intros Hk. destruct (touches_only_configure w st) as (HT & HP & HC).
  split; [exact (HC k Hk) |]. split; [exact HT |]. split; [exact HP |].
  split; [reflexivity | apply check_v3_upgrade_mode_state].
Qed.

Lemma configure_frame_witness :
  config (configure overridden_world (loaded overridden_world)).2 !! "PROXY_COUNT"
  = Some (PInt 2)
  /\ config (configure overridden_world (loaded overridden_world)).2 !! "SECRET_KEY"
     = Some (PStr "30071996471356").
Proof.
  split.
  - rewrite (proj1 (configure_frame overridden_world (loaded overridden_world)
                      "PROXY_COUNT" ltac:(apply (bool_decide_unpack _); vm_compute; exact I))).
    vm_compute. reflexivity.
  - vm_compute. reflexivity.
Defined.

(** ** When start-up goes through *)

Lemma storage_preference_run w st :
  storage_preference w st =
  (Done tt,
   match py_split (storage_preference_text w) with
   | [] => st
   | ws => set_config (<["DISTRIBUTED_STORAGE_PREFERENCE" := PList (PStr <$> ws)]> (config st)) st
   end).
Proof.
  unfold storage_preference, storage_preference_text.
  destruct (py_split _); reflexivity.
Qed.

Lemma storage_preference_other w st k :
  k <> "DISTRIBUTED_STORAGE_PREFERENCE" ->
  config (storage_preference w st).2 !! k = config st !! k.
Proof.
  intros Hk. rewrite storage_preference_run. simpl.
  destruct (py_split _); [reflexivity |].
  simpl. apply lookup_insert_ne. congruence.
Qed.

Lemma session_cookie_run st :
  session_cookie st =
  match config st !! "PREFERRED_URL_SCHEME" with
  | None => (Raise (KeyError "PREFERRED_URL_SCHEME"), st)
  | Some scheme =>
      (Done tt,
       if eq_str scheme "https"
          && negb (truthy (default (PBool false)
                             (config st !! "FORCE_NONSECURE_SESSION_COOKIE")))
       then set_config (<["SESSION_COOKIE_SECURE" := PBool true]> (config st)) st
       else st)
  end.
Proof.
  unfold session_cookie, config_item, bind at 1 2, get_state.
  destruct (config st !! "PREFERRED_URL_SCHEME") as [scheme|]; [| reflexivity].
  cbn. destruct (eq_str scheme "https"); cbn; [| reflexivity].
  destruct (truthy _); reflexivity.
Qed.

Lemma secret_key_done_iff w st :
  (exists st', secret_key w st = (Done tt, st')) <-> secret_key_available w st.
Proof.
  rewrite secret_key_run. unfold secret_key_available. split.
  - intros [st' H]. destruct (config st !! "SECRET_KEY") as [v|]; [| discriminate H].
    exists v. split; [reflexivity |]. intros ->.
    destruct (generate_secret_key w) as [fresh|e]; [| discriminate H].
    exists fresh. reflexivity.
  - intros (v & -> & Hgen). destruct v; try (eexists; reflexivity).
    destruct (Hgen eq_refl) as [fresh ->]. eexists. reflexivity.
Qed.

Lemma secret_key_other w st k :
  k <> "SECRET_KEY" -> config (secret_key w st).2 !! k = config st !! k.
Proof.
  intros Hk. rewrite secret_key_run.
  destruct (config st !! "SECRET_KEY") as [[]|];
    try destruct (generate_secret_key w); try reflexivity.
  simpl. apply lookup_insert_ne. congruence.
Qed.

Lemma after_split_done_iff w st :
  (exists st', after_split w st = (Done tt, st'))
  <-> secret_key_available w st /\ is_Some (config st !! "PREFERRED_URL_SCHEME").
Proof.
  unfold after_split. rewrite bind_run, storage_preference_run.
  set (st1 := match py_split _ with [] => st | _ => _ end).
  assert (forall k, k <> "DISTRIBUTED_STORAGE_PREFERENCE" ->
                    config st1 !! k = config st !! k) as H1.
  { intros k Hk. pose proof (storage_preference_other w st k Hk) as H.
    rewrite storage_preference_run in H. exact H. }
  assert (secret_key_available w st1 <-> secret_key_available w st) as Hav.
  { unfold secret_key_available. rewrite H1; [reflexivity | discriminate]. }
  rewrite bind_run. split.
  - intros [st' H].
    destruct (secret_key w st1) as [[[]|e] st2] eqn:Hk; [| discriminate H].
    split.
    + apply Hav, secret_key_done_iff. exists st2. exact Hk.
    + rewrite session_cookie_run in H.
      pose proof (secret_key_other w st1 "PREFERRED_URL_SCHEME" ltac:(discriminate)) as H2.
      rewrite Hk in H2. simpl in H2. rewrite H2, H1 in H; [| discriminate].
      destruct (config st !! "PREFERRED_URL_SCHEME"); [eexists; reflexivity | discriminate H].
  - intros [Ha [scheme Hs]].
    apply Hav, secret_key_done_iff in Ha as [st2 Hk]. rewrite Hk.
    rewrite session_cookie_run.
    pose proof (secret_key_other w st1 "PREFERRED_URL_SCHEME" ltac:(discriminate)) as H2.
    rewrite Hk in H2. simpl in H2. rewrite H2, H1, Hs; [| discriminate].
    eexists. reflexivity.
Qed.

(** X2: a start-up whose configuration has loaded reaches the end of the
    configuration lines exactly when the upgrade flag gets past its
    check, [registry_model.setup_split] accepts the arguments built from
    the configuration, [SECRET_KEY] is present (and the generator
    delivers when it is [None]) and [PREFERRED_URL_SCHEME] is present;
    nothing else in lines 112-154 can stop it. *)
Theorem startup_completes_iff (w : World) (st : app_state) :
  load_config w (initial_state w) = (Done tt, st) ->
  ((exists st', startup w (initial_state w) = (Done tt, st'))
   <-> upgrade_mode_accepted w st
       /\ setup_split w (configured_split st) = Done tt
       /\ secret_key_available w st
       /\ is_Some (config st !! "PREFERRED_URL_SCHEME")).
Proof.
  intros HL. rewrite (startup_loaded _ _ HL). split.
  - intros [st' H]. apply configure_done_inv in H as (Hacc & Hs & H).
    split; [exact Hacc |]. split; [exact Hs |].
    exact (proj1 (after_split_done_iff w (log_call _ st)) (ex_intro _ st' H)).
  - intros (Hacc & Hs & Hk & Hp).
    rewrite (configure_checked _ _ (check_v3_upgrade_mode_accepts _ _ Hacc)).
    cbn zeta. unfold configured_split in Hs. rewrite Hs.
    exact (proj2 (after_split_done_iff w (log_call _ st)) (conj Hk Hp)).
Qed.

Lemma startup_completes_iff_witness :
  (exists st',
     startup (production_world (PStr "complete"))
       (initial_state (production_world (PStr "complete"))) = (Done tt, st'))
  <-> upgrade_mode_accepted (production_world (PStr "complete"))
        (loaded (production_world (PStr "complete")))
      /\ setup_split (production_world (PStr "complete"))
           (configured_split (loaded (production_world (PStr "complete")))) = Done tt
      /\ secret_key_available (production_world (PStr "complete"))
           (loaded (production_world (PStr "complete")))
      /\ is_Some (config (loaded (production_world (PStr "complete")))
                    !! "PREFERRED_URL_SCHEME").
Proof.
  apply (startup_completes_iff (production_world (PStr "complete"))).
  vm_compute. reflexivity.
Defined.

(** ** The one call of [setup_split] *)

Lemma configured_split_frame st st' :
  (forall k, k ∉ configure_keys -> config st' !! k = config st !! k) ->
  configured_split st' = configured_split st.
Proof.
  intros H. unfold configured_split, config_value.
  rewrite !H; [reflexivity | | | |]; apply (bool_decide_unpack _); exact I.
Qed.

(** X3: no start-up calls [registry_model.setup_split] more than once,
    however it ends; and a start-up that reaches the end of the
    configuration lines has called it exactly once, successfully, with
    the proportion, the two lists and the upgrade mode that the final
    [app.config] holds. *)
Theorem setup_split_called_once (w : World) :
(length (split_calls (startup w (initial_state w)).2) <= 1)%nat
  /\ forall st',
       startup w (initial_state w) = (Done tt, st') ->
       split_calls st' = [configured_split st']
       /\ setup_split w (configured_split st') = Done tt.
Proof.
  split.
  - rewrite startup_run.
    pose proof (keeps_calls_load_config w (initial_state w)) as HL.
    destruct (load_config w (initial_state w)) as [[u|e] st] eqn:E; simpl in HL.
    + destruct (upgrade_mode_accepted_dec w st) as [Ha | Hn].
      * rewrite (configure_checked_calls _ _ (check_v3_upgrade_mode_accepts _ _ Ha)), HL.
        simpl. lia.
      * destruct (check_v3_upgrade_mode_rejects _ _ Hn) as [msg Hmsg].
        rewrite (configure_rejected _ _ _ Hmsg). simpl. rewrite HL. simpl. lia.
    + simpl. rewrite HL. simpl. lia.
  - intros st' H.
    destruct (load_config w (initial_state w)) as [[[]|e] st] eqn:HL;
      [| rewrite startup_run, HL in H; discriminate H].
    pose proof (touches_only_configure w st) as (_ & _ & HC).
    rewrite (startup_loaded _ _ HL) in H.
    pose proof (configure_done_inv _ _ _ H) as (Hacc & Hs & _).
    rewrite H in HC. simpl in HC.
    rewrite (configured_split_frame _ _ HC). split; [| exact Hs].
    pose proof (configure_checked_calls _ _ (check_v3_upgrade_mode_accepts _ _ Hacc)) as Hc.
    rewrite H, (load_config_calls _ _ HL) in Hc. exact Hc.
Qed.

Lemma setup_split_called_once_witness :
  split_calls (startup oversized_world (initial_state oversized_world)).2
  = [configured_split (startup oversized_world (initial_state oversized_world)).2]
  /\ setup_split oversized_world
       (configured_split (startup oversized_world (initial_state oversized_world)).2)
     = Done tt.
Proof.
  apply (proj2 (setup_split_called_once oversized_world)).
  vm_compute. reflexivity.
Defined.

(** ** Teardown handler and proxy fix *)

Lemma load_override_config_wiring w st :
  teardown_handlers (load_override_config w st).2 = teardown_handlers st
  /\ proxy_fix (load_override_config w st).2 = proxy_fix st.
Proof.
  unfold load_override_config. cbn.
  destruct (update_app_config w (config st)); split; reflexivity.
Qed.

Lemma environ_override_wiring w st :
  teardown_handlers (environ_override w st).2 = teardown_handlers st
  /\ proxy_fix (environ_override w st).2 = proxy_fix st.
Proof.
  unfold environ_override. cbn.
  destruct (json_loads w _) as [v|e]; cbn; [| split; reflexivity].
  destruct (dict_update w (config st) v); split; reflexivity.
Qed.

Lemma instantiate_config_run w st :
  instantiate_config w st =
  (Done tt,
   {| config := (if IS_TESTING w then TestConfig w else DefaultConfig w) ∪ config st;
      teardown_handlers :=
        (teardown_handlers st ++ if IS_TESTING w then [] else ["close_db_filter"])%list;
      proxy_fix := proxy_fix st;
      split_calls := split_calls st |}).
Proof.
  unfold instantiate_config. destruct (IS_TESTING w); cbn.
  - rewrite app_nil_r. reflexivity.
  - reflexivity.
Qed.

Lemma fix_remote_address_state st :
  fix_remote_address st =
  (Done tt,
   {| config := config st;
      teardown_handlers := teardown_handlers st;
      proxy_fix := if truthy (proxy_count st) then Some (proxy_count st)
                   else proxy_fix st;
      split_calls := split_calls st |}).
Proof.
  unfold fix_remote_address, proxy_count. cbn.
  destruct (truthy _); [reflexivity |]. destruct st; reflexivity.
Qed.

Lemma load_config_teardown w st0 :
  teardown_handlers (load_config w st0).2 =
  (teardown_handlers st0 ++ if IS_TESTING w then [] else ["close_db_filter"])%list.
Proof.
  unfold load_config. rewrite bind_run, instantiate_config_run.
  set (st1 := {| config := _ |}).
  change (teardown_handlers st0 ++ _)%list with (teardown_handlers st1).
  rewrite bind_run.
  pose proof (load_override_config_wiring w st1) as [H2 _].
  destruct (load_override_config w st1) as [[u|e] st2]; simpl in H2; [| exact H2].
  rewrite bind_run.
  pose proof (environ_override_wiring w st2) as [H3 _].
  destruct (environ_override w st2) as [[u'|e] st3]; simpl in H3;
    [| simpl; congruence].
  rewrite fix_remote_address_state. simpl. congruence.
Qed.

(** X4: however start-up ends, the teardown handler that closes the
    database connection has been registered exactly when the process is
    not testing: once in a normal run, never in a test run. *)
Theorem teardown_registered_unless_testing (w : World) :
  teardown_handlers (startup w (initial_state w)).2
  = if IS_TESTING w then [] else ["close_db_filter"].
Proof.
  rewrite startup_run.
  pose proof (load_config_teardown w (initial_state w)) as HL.
  destruct (load_config w (initial_state w)) as [[u|e] st]; simpl in HL.
  - destruct (touches_only_configure w st) as (HT & _ & _). rewrite HT. exact HL.
  - exact HL.
Qed.

Lemma load_config_proxy_fix w st0 st :
  load_config w st0 = (Done tt, st) ->
  proxy_fix st = if truthy (proxy_count st) then Some (proxy_count st)
                 else proxy_fix st0.
Proof.
  unfold load_config. intros H.
  apply bind_Done_inv in H as (u1 & st1 & H1 & H).
  apply bind_Done_inv in H as (u2 & st2 & H2 & H).
  apply bind_Done_inv in H as (u3 & st3 & H3 & H).
  rewrite fix_remote_address_state in H. injection H as <-.
  unfold proxy_count at 1 2. simpl. fold (proxy_count st3).
  pose proof (load_override_config_wiring w st1) as [_ P2].
  rewrite H2 in P2. simpl in P2.
  pose proof (environ_override_wiring w st2) as [_ P3].
  rewrite H3 in P3. simpl in P3.
  rewrite instantiate_config_run in H1. injection H1 as _ E1.
  rewrite P3, P2, <- E1. reflexivity.
Qed.

(** X5: once the configuration has loaded, the proxy fix agrees with the
    configuration for the rest of start-up, however that ends:
    [app.wsgi_app] is wrapped exactly when [PROXY_COUNT] (1 when the key
    is missing) is true, and then with that count as the number of
    proxies.  A [PROXY_COUNT] of 0 or [None] therefore switches the fix
    off, also when it arrives through the override of the environment. *)
Theorem proxy_fix_follows_config (w : World) (st : app_state) :
  load_config w (initial_state w) = (Done tt, st) ->
  let final := (startup w (initial_state w)).2 in
  proxy_fix final
  = if truthy (proxy_count final) then Some (proxy_count final) else None.
Proof.
  intros HL final. subst final. rewrite (startup_loaded _ _ HL).
  destruct (touches_only_configure w st) as (_ & HP & HC).
  unfold proxy_count. rewrite HP, HC;
    [| apply (bool_decide_unpack _); exact I].
  exact (load_config_proxy_fix _ _ _ HL).
Qed.

Lemma proxy_fix_follows_config_witness :
  let final := (startup overridden_world (initial_state overridden_world)).2 in
  proxy_count final = PInt 2
  /\ proxy_fix final
     = if truthy (proxy_count final) then Some (proxy_count final) else None.
Proof.
  intros final. split; [vm_compute; reflexivity |].
  apply (proxy_fix_follows_config overridden_world (loaded overridden_world)).
  vm_compute. reflexivity.
Defined.

(** ** The storage preference of the environment *)

Lemma append_cons c (a b : string) : String c a +:+ b = String c (a +:+ b).
Proof. reflexivity. Qed.

Lemma list_ascii_of_string_app (a b : string) :
  String.list_ascii_of_string (a +:+ b)
  = (String.list_ascii_of_string a ++ String.list_ascii_of_string b)%list.
Proof.
  induction a as [| c a IH]; [reflexivity |].
  rewrite append_cons. simpl. rewrite IH. reflexivity.
Qed.

Lemma append_nil_r (a : string) : a +:+ "" = a.
Proof.
  induction a as [| c a IH]; [reflexivity |].
  rewrite append_cons, IH. reflexivity.
Qed.

Lemma append_assoc (a b c : string) : (a +:+ b) +:+ c = a +:+ (b +:+ c).
Proof.
  induction a as [| x a IH]; [reflexivity |].
  rewrite !append_cons, IH. reflexivity.
Qed.

Lemma append_empty_inv (a b : string) : a +:+ b = "" -> a = "" /\ b = "".
Proof.
  destruct a; [intros H; split; [reflexivity | exact H] |].
  rewrite append_cons. discriminate.
Qed.

Lemma is_word_snoc cur c :
  cur = "" \/ is_word cur = true -> is_space c = false ->
  is_word (cur +:+ String c "") = true.
Proof.
  intros Hcur Hc. unfold is_word. apply andb_true_iff. split.
  - apply negb_true_iff, String.eqb_neq. intros E.
    apply append_empty_inv in E as [_ E]. discriminate E.
  - rewrite list_ascii_of_string_app, forallb_app. simpl. rewrite Hc. simpl.
    rewrite andb_true_r. destruct Hcur as [-> | Hw]; [reflexivity |].
    unfold is_word in Hw. apply andb_true_iff in Hw as [_ Hw]. exact Hw.
Qed.

Lemma split_from_words cur s :
  cur = "" \/ is_word cur = true -> forallb is_word (split_from cur s) = true.
Proof.
  revert cur. induction s as [| c s IH]; intros cur Hcur; simpl.
  - destruct (String.eqb_spec cur "") as [-> | Hne]; [reflexivity |].
    simpl. destruct Hcur as [-> | ->]; [contradiction Hne; reflexivity | reflexivity].
  - destruct (is_space c) eqn:Hc.
    + destruct (String.eqb_spec cur "") as [-> | Hne].
      * apply IH. left. reflexivity.
      * simpl. destruct Hcur as [-> | ->]; [contradiction Hne; reflexivity |].
        apply IH. left. reflexivity.
    + apply IH. right. apply is_word_snoc; assumption.
Qed.

Lemma split_from_nil cur s :
  split_from cur s = [] <-> cur = "" /\ blank s = true.
Proof.
  revert cur. induction s as [| c s IH]; intros cur; unfold blank; simpl.
  - destruct (String.eqb_spec cur "") as [-> | Hne].
    + split; intros _; [split |]; reflexivity.
    + split; [discriminate | intros [E _]; contradiction].
  - destruct (is_space c) eqn:Hc; simpl.
    + destruct (String.eqb_spec cur "") as [-> | Hne].
      * rewrite IH. unfold blank. tauto.
      * split; [discriminate | intros [-> _]; contradiction Hne; reflexivity].
    + rewrite IH. split; [| intros [_ H]; discriminate H].
      intros [E _]. apply append_empty_inv in E as [_ E]. discriminate E.
Qed.

Lemma py_split_nil s : py_split s = [] <-> blank s = true.
Proof.
  unfold py_split. rewrite split_from_nil. split; [intros [_ H]; exact H |].
  intros H. split; [reflexivity | exact H].
Qed.

(** X6: the environment sets [DISTRIBUTED_STORAGE_PREFERENCE] only when
    [QUAY_DISTRIBUTED_STORAGE_PREFERENCE] names at least one location: an
    unset, empty or all-blank variable leaves the state, and so the
    configured preference, as it was; otherwise the key, and no other
    key, is replaced by the non-empty list of the names, none of which is
    empty or contains white space.  The step never raises. *)
Theorem storage_preference_words (w : World) (st : app_state) :
  let ws := py_split (storage_preference_text w) in
  forallb is_word ws = true
  /\ (blank (storage_preference_text w) = true ->
      storage_preference w st = (Done tt, st))
  /\ (blank (storage_preference_text w) = false ->
      ws <> []
      /\ exists st',
           storage_preference w st = (Done tt, st')
           /\ config st' !! "DISTRIBUTED_STORAGE_PREFERENCE" = Some (PList (PStr <$> ws))
           /\ forall k, k <> "DISTRIBUTED_STORAGE_PREFERENCE" ->
                        config st' !! k = config st !! k).
Proof.
  intros ws. subst ws. split; [| split].
  - apply split_from_words. left. reflexivity.
  - intros Hb. rewrite storage_preference_run.
    rewrite (proj2 (py_split_nil _) Hb). reflexivity.
  - intros Hb.
    assert (py_split (storage_preference_text w) <> []) as Hne.
    { intros E. apply py_split_nil in E. congruence. }
    split; [exact Hne |].
    rewrite storage_preference_run.
    destruct (py_split (storage_preference_text w)) as [| x xs];
      [contradiction Hne; reflexivity |].
    eexists. split; [reflexivity |]. split.
    + simpl. apply lookup_insert_eq.
    + intros k Hk. simpl. apply lookup_insert_ne. congruence.
Qed.

Lemma storage_preference_words_witness :
  let w := sample_world false false
             {[ "QUAY_DISTRIBUTED_STORAGE_PREFERENCE" := " local_us   local_eu " ]} ∅ in
  py_split (storage_preference_text w) = ["local_us"; "local_eu"]
  /\ py_split (storage_preference_text w) <> []
  /\ storage_preference unflagged_world (initial_state unflagged_world)
     = (Done tt, initial_state unflagged_world).
Proof.
  intros w. split; [vm_compute; reflexivity |]. split.
  - apply (proj2 (proj2 (storage_preference_words w (initial_state w)))).
    vm_compute. reflexivity.
  - apply (proj1 (proj2 (storage_preference_words unflagged_world
                           (initial_state unflagged_world)))).
    vm_compute. reflexivity.
Defined.

Lemma split_from_word cur x rest :
  forallb (fun c => negb (is_space c)) (String.list_ascii_of_string x) = true ->
  split_from cur (x +:+ rest) = split_from (cur +:+ x) rest.
Proof.
  revert cur. induction x as [| c x IH]; intros cur Hx.
  - rewrite append_nil_r. reflexivity.
  - simpl in Hx. apply andb_true_iff in Hx as [Hc Hx].
    apply negb_true_iff in Hc. rewrite append_cons. simpl.
    rewrite Hc, (IH _ Hx), append_assoc. reflexivity.
Qed.

Lemma py_split_concat (ws : list string) :
  forallb is_word ws = true -> py_split (String.concat " " ws) = ws.
Proof.
  unfold py_split. induction ws as [| x ws IH]; intros Hws; [reflexivity |].
  simpl in Hws. apply andb_true_iff in Hws as [Hx Hws].
  unfold is_word in Hx. apply andb_true_iff in Hx as [Hne Hx].
  apply negb_true_iff in Hne.
  destruct ws as [| y ws].
  - simpl. rewrite <- (append_nil_r x) at 1. rewrite (split_from_word _ _ _ Hx).
    change ("" +:+ x) with x. simpl. rewrite Hne. reflexivity.
  - change (String.concat " " (x :: y :: ws))
      with (x +:+ String (Ascii.ascii_of_nat 32) (String.concat " " (y :: ws))).
    rewrite (split_from_word _ _ _ Hx). change ("" +:+ x) with x.
    simpl. rewrite Hne. f_equal. exact (IH Hws).
Qed.

(** X7: a preference written as location names joined by single blanks
    is read back as exactly those names, in their order: the key then
    holds the list of the names. *)
Theorem storage_preference_round_trip (w : World) (st : app_state) (ws : list string) :
  ws <> [] ->
  forallb is_word ws = true ->
  storage_preference_text w = String.concat " " ws ->
  py_split (storage_preference_text w) = ws
  /\ config (storage_preference w st).2 !! "DISTRIBUTED_STORAGE_PREFERENCE"
     = Some (PList (PStr <$> ws)).
Proof.
  intros Hne Hws Htext.
  assert (py_split (storage_preference_text w) = ws) as Hsplit
    by (rewrite Htext; apply py_split_concat, Hws).
  split; [exact Hsplit |].
  rewrite storage_preference_run, Hsplit.
  destruct ws; [contradiction Hne; reflexivity |].
  simpl. apply lookup_insert_eq.
Qed.

Lemma storage_preference_round_trip_witness :
  let w := sample_world false false
             {[ "QUAY_DISTRIBUTED_STORAGE_PREFERENCE" := "local_us local_eu" ]} ∅ in
  py_split (storage_preference_text w) = ["local_us"; "local_eu"]
  /\ config (storage_preference w (initial_state w)).2 !! "DISTRIBUTED_STORAGE_PREFERENCE"
     = Some (PList [PStr "local_us"; PStr "local_eu"]).
Proof.
  intros w.
  apply (storage_preference_round_trip w (initial_state w) ["local_us"; "local_eu"]).
  - discriminate.
  - vm_compute. reflexivity.
  - vm_compute. reflexivity.
Defined.

(** ** The secure session cookie *)

Lemma eq_str_true_iff v s : eq_str v s = true <-> v = PStr s.
Proof.
  unfold eq_str. rewrite negb_true_iff. split.
  - destruct v; simpl; try discriminate.
    destruct (String.eqb_spec s0 s) as [-> | Hne]; [reflexivity | discriminate].
  - intros ->. simpl. rewrite String.eqb_refl. reflexivity.
Qed.

(** X8: the session cookie step raises [KeyError] when
    [PREFERRED_URL_SCHEME] is missing and changes nothing then;
    otherwise it ends normally, sets [SESSION_COOKIE_SECURE] to [True]
    when the scheme is https and [FORCE_NONSECURE_SESSION_COOKIE] is not
    true, changes nothing at all in every other case, and so never turns
    off a [SESSION_COOKIE_SECURE] that the configuration had on. *)
Theorem session_cookie_secure (st : app_state) :
  (config st !! "PREFERRED_URL_SCHEME" = None ->
   session_cookie st = (Raise (KeyError "PREFERRED_URL_SCHEME"), st))
  /\ forall scheme,
       config st !! "PREFERRED_URL_SCHEME" = Some scheme ->
       exists st',
         session_cookie st = (Done tt, st')
         /\ (scheme = PStr "https" ->
             truthy (default (PBool false)
                       (config st !! "FORCE_NONSECURE_SESSION_COOKIE")) = false ->
             config st' !! "SESSION_COOKIE_SECURE" = Some (PBool true))
         /\ (scheme <> PStr "https"
             \/ truthy (default (PBool false)
                          (config st !! "FORCE_NONSECURE_SESSION_COOKIE")) = true ->
             st' = st)
         /\ (config st !! "SESSION_COOKIE_SECURE" = Some (PBool true) ->
             config st' !! "SESSION_COOKIE_SECURE" = Some (PBool true))
         /\ forall k, k <> "SESSION_COOKIE_SECURE" -> config st' !! k = config st !! k.
Proof.
  split.
  - intros H. rewrite session_cookie_run, H. reflexivity.
  - intros scheme H. rewrite session_cookie_run, H.
    eexists. split; [reflexivity |].
    destruct (eq_str scheme "https") eqn:Es; simpl.
    + apply eq_str_true_iff in Es.
      destruct (truthy (default (PBool false)
                  (config st !! "FORCE_NONSECURE_SESSION_COOKIE"))) eqn:Ef; simpl.
      * split; [intros _ Hf; discriminate Hf |].
        split; [reflexivity |]. split; [intros Hs; exact Hs | reflexivity].
      * split; [intros _ _; apply lookup_insert_eq |].
        split; [intros [Hne | Hf]; [contradiction | discriminate Hf] |].
        split; [intros _; apply lookup_insert_eq |].
        intros k Hk. apply lookup_insert_ne. congruence.
    + assert (scheme <> PStr "https") as Hne.
      { intros E. apply eq_str_true_iff in E. congruence. }
      split; [intros E; contradiction |].
      split; [reflexivity |]. split; [intros Hs; exact Hs | reflexivity].
Qed.

Lemma session_cookie_secure_witness :
  let st := set_config {[ "PREFERRED_URL_SCHEME" := PStr "https" ]}
              (initial_state unflagged_world) in
  exists st',
    session_cookie st = (Done tt, st')
    /\ config st' !! "SESSION_COOKIE_SECURE" = Some (PBool true).
Proof.
  intros st.
  destruct (proj2 (session_cookie_secure st) (PStr "https"))
    as (st' & Hrun & Hset & _).
  - vm_compute. reflexivity.
  - exists st'. split; [exact Hrun |]. apply Hset; [reflexivity |].
    vm_compute. reflexivity.
Defined.

(** ** Failures of start-up *)

(** X9: a configuration from which the key [SECRET_KEY] is missing
    altogether, as opposed to holding [None], ends start-up in
    [KeyError]: no key is generated for it.  The exception comes after
    the split of the registry model, so [registry_model.setup_split] has
    been called by then. *)
Theorem missing_secret_key_fatal (w : World) (st : app_state) :
  load_config w (initial_state w) = (Done tt, st) ->
  upgrade_mode_accepted w st ->
  setup_split w (configured_split st) = Done tt ->
  config st !! "SECRET_KEY" = None ->
  (startup w (initial_state w)).1 = Raise (KeyError "SECRET_KEY")
  /\ split_calls (startup w (initial_state w)).2 = [configured_split st]
  /\ config (startup w (initial_state w)).2 !! "SECRET_KEY" = None.
Proof.
  intros HL Hacc Hs Hk.
  pose proof (check_v3_upgrade_mode_accepts _ _ Hacc) as Hc.
  assert (split_calls (startup w (initial_state w)).2 = [configured_split st]) as Hcalls.
  { rewrite (startup_loaded _ _ HL), (configure_checked_calls _ _ Hc),
      (load_config_calls _ _ HL). reflexivity. }
  rewrite (startup_loaded _ _ HL) in *.
  rewrite (configure_checked _ _ Hc) in *. cbn zeta in *.
  unfold configured_split in Hs. rewrite Hs in *.
  unfold after_split in *. rewrite bind_run, storage_preference_run in *.
  set (st1 := match py_split _ with [] => _ | _ => _ end) in *.
  assert (config st1 !! "SECRET_KEY" = None) as Hk1.
  { subst st1. destruct (py_split _); [exact Hk |].
    simpl. rewrite lookup_insert_ne; [exact Hk | discriminate]. }
  rewrite bind_run, secret_key_run, Hk1 in *.
  split; [reflexivity |]. split; [exact Hcalls | exact Hk1].
Qed.

Lemma missing_secret_key_fatal_witness :
  let w := {| IS_TESTING := true; IS_BUILDING := false; environ := ∅;
              flask_default_config := {[ "PREFERRED_URL_SCHEME" := PStr "http" ]};
              TestConfig := ∅; DefaultConfig := ∅;
              update_app_config := Done;
              json_loads := fun _ => Done (PDict []);
              update_from_iterable := fun c _ => Done c;
              setup_split := fun _ => Done tt;
              generate_secret_key := Done "30071996471356" |} in
  (startup w (initial_state w)).1 = Raise (KeyError "SECRET_KEY").
Proof.
  intros w.
  apply (missing_secret_key_fatal w (loaded w)).
  - vm_compute. reflexivity.
  - left. reflexivity.
  - reflexivity.
  - vm_compute. reflexivity.
Defined.

(** X10: an override in [QUAY_OVERRIDE_CONFIG] that [json.loads] refuses
    ends start-up in that exception, with the state as the configuration
    provider left it: the proxy fix, the check of the upgrade flag and
    the split of the registry model are never reached. *)
Theorem malformed_override_fatal (w : World) (st0 st : app_state) (e : exn) :
  (instantiate_config w ;; load_override_config w) st0 = (Done tt, st) ->
  json_loads w (default "{}" (environ w !! OVERRIDE_CONFIG_KEY)) = Raise e ->
  startup w st0 = (Raise e, st).
Proof.
  intros H Hj. unfold startup, load_config.
  apply bind_Done_inv in H as (u & st1 & H1 & H2).
  rewrite bind_run. rewrite (bind_Done _ _ _ _ _ H1), (bind_Done _ _ _ _ _ H2).
  unfold environ_override. cbn. rewrite Hj. reflexivity.
Qed.

Lemma malformed_override_fatal_witness :
  let w := sample_world false false {[ OVERRIDE_CONFIG_KEY := "{" ]}
             {[ "SETUP_COMPLETE" := PBool true ]} in
  startup w (initial_state w)
  = (Raise (Collaborator "ValueError"),
     ((instantiate_config w ;; load_override_config w) (initial_state w)).2).
Proof.
  intros w. apply (malformed_override_fatal w).
  - vm_compute. reflexivity.
  - vm_compute. reflexivity.
Defined.

(** X11: the override of the environment is in place before the upgrade
    flag is checked.  When the JSON object of [QUAY_OVERRIDE_CONFIG]
    sets [V3_UPGRADE_MODE] to one of the five values, start-up gets past
    the check and calls [registry_model.setup_split] with that value,
    whatever the configuration files say about the flag. *)
Theorem override_supplies_upgrade_mode
    (w : World) (st1 : app_state) (s : string) (kvs : list (string * pyval))
    (t : string) :
  (instantiate_config w ;; load_override_config w) (initial_state w) = (Done tt, st1) ->
  environ w !! OVERRIDE_CONFIG_KEY = Some s ->
  json_loads w s = Done (PDict kvs) ->
  NoDup kvs.*1 ->
  ("V3_UPGRADE_MODE", PStr t) ∈ kvs ->
  t ∈ upgrade_modes ->
  exists p ow vw,
    split_calls (startup w (initial_state w)).2 = [SplitArgs p ow vw (PStr t)].
Proof.
  intros H1 He Hj Hnd Hin Ht.
  assert (environ_override w st1 =
          (Done tt, set_config
             (fold_left (fun acc kv => <[kv.1 := kv.2]> acc) kvs (config st1)) st1))
    as Hrun.
  { apply (environ_override_run w st1 (PDict kvs)); [rewrite He; exact Hj | reflexivity]. }
  destruct (fix_remote_address_run
              (set_config
                 (fold_left (fun acc kv => <[kv.1 := kv.2]> acc) kvs (config st1)) st1))
    as (st & Hfix & Hcfg).
  assert (load_config w (initial_state w) = (Done tt, st)) as HL.
  { unfold load_config.
    apply bind_Done_inv in H1 as (u & st0 & Ha & Hb).
    rewrite (bind_Done _ _ _ _ _ Ha), (bind_Done _ _ _ _ _ Hb),
      (bind_Done _ _ _ _ _ Hrun). exact Hfix. }
  assert (config_value st "V3_UPGRADE_MODE" = PStr t) as Hv.
  { unfold config_value. rewrite Hcfg. simpl.
    rewrite (update_items_item _ _ _ _ Hnd Hin). reflexivity. }
  assert (upgrade_mode_accepted w st) as Hacc.
  { right. right. right. exists t. split; [exact Ht | exact Hv]. }
  rewrite (startup_loaded _ _ HL),
    (configure_checked_calls _ _ (check_v3_upgrade_mode_accepts _ _ Hacc)),
    (load_config_calls _ _ HL), Hv.
  eexists _, _, _. reflexivity.
Qed.

Lemma override_supplies_upgrade_mode_witness :
  exists p ow vw,
    split_calls (startup overridden_world (initial_state overridden_world)).2
    = [SplitArgs p ow vw (PStr "complete")].
Proof.
  apply (override_supplies_upgrade_mode overridden_world
           ((instantiate_config overridden_world ;; load_override_config overridden_world)
              (initial_state overridden_world)).2
           sample_override
           [("PROXY_COUNT", PInt 2); ("V3_UPGRADE_MODE", PStr "complete")]
           "complete").
  - vm_compute. reflexivity.
  - vm_compute. reflexivity.
  - vm_compute. reflexivity.
  - apply (bool_decide_unpack _). vm_compute. exact I.
  - apply list_elem_of_further, list_elem_of_here.
  - apply (bool_decide_unpack _). vm_compute. exact I.
Defined.

(** ** The check of the database secret key *)

(** X12: lines 335-336 raise exactly when [DATABASE_SECRET_KEY] is
    missing or [None] while [SETUP_COMPLETE] is true, and leave the state
    alone either way.  Any other value of the key passes, the empty
    string included, and, unlike the check of the upgrade flag, the check
    is not skipped in a test or build process: there a missing upgrade
    flag goes through and a missing database secret key still raises. *)
Theorem database_secret_key_required (w : World) (st : app_state) :
  (config_value st "DATABASE_SECRET_KEY" = PNone -> setup_complete st = true ->
   check_database_secret_key st =
   (Raise (Exception
      "Missing DATABASE_SECRET_KEY in config; did you perhaps forget to add it?"), st))
  /\ (config_value st "DATABASE_SECRET_KEY" <> PNone \/ setup_complete st = false ->
      check_database_secret_key st = (Done tt, st))
  /\ (IS_TESTING w = true \/ IS_BUILDING w = true ->
      config_value st "DATABASE_SECRET_KEY" = PNone -> setup_complete st = true ->
      check_v3_upgrade_mode w st = (Done tt, st)
      /\ (check_database_secret_key st).1 <> Done tt).
Proof.
  assert (config_value st "DATABASE_SECRET_KEY" = PNone -> setup_complete st = true ->
          check_database_secret_key st =
          (Raise (Exception
             "Missing DATABASE_SECRET_KEY in config; did you perhaps forget to add it?"), st))
    as Hraise.
  { unfold check_database_secret_key, config_value, setup_complete.
    intros Hk Hs. cbn. rewrite Hk. cbn. rewrite Hs. reflexivity. }
  split; [exact Hraise |]. split.
  - unfold check_database_secret_key, config_value, setup_complete. cbn.
    intros [Hk | Hs].
    + destruct (default PNone (config st !! "DATABASE_SECRET_KEY"));
        try reflexivity. contradiction Hk. reflexivity.
    + destruct (is_none _); cbn; [rewrite Hs |]; reflexivity.
  - intros Hmode Hk Hs. split.
    + apply check_v3_upgrade_mode_skipped. tauto.
    + rewrite (Hraise Hk Hs). discriminate.
Qed.

Lemma database_secret_key_required_witness :
  let w := sample_world true false ∅ {[ "SETUP_COMPLETE" := PBool true ]} in
  check_v3_upgrade_mode w (loaded w) = (Done tt, loaded w)
  /\ (check_database_secret_key (loaded w)).1 <> Done tt.
Proof.
  intros w.
  apply (proj2 (proj2 (database_secret_key_required w (loaded w)))).
  - left. reflexivity.
  - vm_compute. reflexivity.
  - vm_compute. reflexivity.
Defined.

(** ** The hook before a request *)

Lemma split_on_from_length sep cur s :
  length (split_on_from sep cur s) = S (count_char sep s).
Proof.
  revert cur. induction s as [| c s IH]; intros cur; simpl; [reflexivity |].
  destruct (Ascii.eqb c sep); simpl; rewrite IH; reflexivity.
Qed.

Lemma split_on_from_piece sep cur a :
  count_char sep a = 0%nat -> split_on_from sep cur a = [cur +:+ a].
Proof.
  revert cur. induction a as [| c a IH]; intros cur; simpl.
  - rewrite append_nil_r. reflexivity.
  - destruct (Ascii.eqb c sep); simpl; [discriminate |].
    intros H. rewrite (IH _ H), append_assoc. reflexivity.
Qed.

Lemma split_on_from_sep sep cur a rest :
  count_char sep a = 0%nat ->
  split_on_from sep cur (a +:+ String sep rest)
  = (cur +:+ a) :: split_on_from sep "" rest.
Proof.
  revert cur. induction a as [| c a IH]; intros cur.
  - intros _. change ("" +:+ String sep rest) with (String sep rest). simpl.
    rewrite Ascii.eqb_refl, append_nil_r. reflexivity.
  - rewrite append_cons. simpl. destruct (Ascii.eqb c sep); simpl; [discriminate |].
    intros H. rewrite (IH _ H), append_assoc. reflexivity.
Qed.

(** X13: the hook before a request.  With [PYDEV_DEBUG] unset or empty
    it only logs the start of the request and never touches the
    debugger.  With a value that does not contain exactly one colon it
    raises the [ValueError] of the unpacking, before any call of
    [pydevd.settrace] and before the log line, so that every request
    fails.  With a value of the form host, colon, port it attaches the
    debugger to that host and to the port that [int] reads, and then
    logs. *)
Theorem request_start_debugger (w : World) (d : Debugger) (id path : string) :
  let start :=
    Debug "Starting request: %s (%s)" [id; path] [("request_id", PStr id)] in
  (environ w !! "PYDEV_DEBUG" = None \/ environ w !! "PYDEV_DEBUG" = Some "" ->
   _request_start w d id path = ([start], None))
  /\ (forall s,
        environ w !! "PYDEV_DEBUG" = Some s -> s <> "" ->
        import_pydevd d = Done tt ->
        count_char colon s <> 1%nat ->
        _request_start w d id path
        = ([], Some (ValueError_unpack (S (count_char colon s)))))
  /\ (forall host port n,
        environ w !! "PYDEV_DEBUG" = Some (host +:+ String colon port) ->
        count_char colon host = 0%nat -> count_char colon port = 0%nat ->
        import_pydevd d = Done tt ->
        py_int d port = Some n ->
        settrace d host n = Done tt ->
        _request_start w d id path = ([Settrace host n; start], None)).
Proof.
  intros start. unfold _request_start. fold start. split; [| split].
  - intros [-> | ->]; reflexivity.
  - intros s -> Hne -> Hcount.
    assert (truthy (PStr s) = true) as ->.
    { simpl. apply negb_true_iff, String.eqb_neq, Hne. }
    pose proof (split_on_from_length colon "" s) as Hlen.
    fold (split_on colon s) in Hlen.
    destruct (split_on colon s) as [| a [| b [| c l]]]; simpl in Hlen;
      try (rewrite <- Hlen; reflexivity).
    contradiction Hcount. lia.
  - intros host port n -> Hh Hp -> Hint Htrace.
    assert (truthy (PStr (host +:+ String colon port)) = true) as ->.
    { simpl. apply negb_true_iff, String.eqb_neq. intros E.
      apply append_empty_inv in E as [_ E]. discriminate E. }
    unfold split_on. rewrite (split_on_from_sep _ _ _ _ Hh).
    rewrite (split_on_from_piece _ _ _ Hp).
    change ("" +:+ host) with host. change ("" +:+ port) with port.
    rewrite Hint, Htrace. reflexivity.
Qed.

Lemma request_start_debugger_witness :
  let d := {| import_pydevd := Done tt;
              py_int := fun s => if String.eqb s "5678" then Some 5678 else None;
              settrace := fun _ _ => Done tt |} in
  _request_start
    (sample_world false false {[ "PYDEV_DEBUG" := "localhost" ]} ∅) d "urn:request:1" "/v2/"
  = ([], Some (ValueError_unpack 1))
  /\ _request_start
       (sample_world false false
          {[ "PYDEV_DEBUG" := "localhost" +:+ String colon "5678" ]} ∅)
       d "urn:request:1" "/v2/"
     = ([Settrace "localhost" 5678;
         Debug "Starting request: %s (%s)" ["urn:request:1"; "/v2/"]
           [("request_id", PStr "urn:request:1")]], None).
Proof.
  intros d. split.
  - apply (proj1 (proj2 (request_start_debugger
        (sample_world false false {[ "PYDEV_DEBUG" := "localhost" ]} ∅)
        d "urn:request:1" "/v2/")) "localhost").
    + vm_compute. reflexivity.
    + discriminate.
    + reflexivity.
    + vm_compute. discriminate.
  - apply (proj2 (proj2 (request_start_debugger
        (sample_world false false
           {[ "PYDEV_DEBUG" := "localhost" +:+ String colon "5678" ]} ∅)
        d "urn:request:1" "/v2/")) "localhost" "5678" 5678).
    + vm_compute. reflexivity.
    + reflexivity.
    + reflexivity.
    + reflexivity.
    + reflexivity.
    + reflexivity.
Defined.

(** ** The hook after a request *)

(** X14: the hook after a request.  When [get_json] raises something
    other than an [HTTPException] the hook ends in that exception
    without a log line.  Otherwise, if [filter_logs] goes through, the
    hook logs once and returns the response it was given; the
    [json_body] it logs is a dict or a false value, since a true body
    that is no dict is wrapped under [_parsererror] and an
    [HTTPException] counts as [None]; and the [extra] has the key
    [user-agent] exactly when the request has a user agent. *)
Theorem request_end_logs
    (filter_logs : pyval -> list filtered_value -> outcome pyval)
    (digest : string) (request : Request) (resp : pyval) :
  (forall e, get_json request = JsonError e ->
             _request_end filter_logs digest request resp = ([], Raise e))
  /\ ((forall e, get_json request <> JsonError e) ->
      (is_dict (values_to_dict request) = true ->
       exists v, filter_logs (values_to_dict request) FILTERED_VALUES = Done v) ->
      exists extra,
        _request_end filter_logs digest request resp
        = ([Debug "Ending request: %s (%s)" [request_id request; path request] extra],
           Done resp)
        /\ (exists j, ("json_body", j) ∈ extra
                      /\ (is_dict j = true \/ truthy j = false))
        /\ (get_json request = JsonHTTPException -> ("json_body", PNone) ∈ extra)
        /\ (forall v, get_json request = JsonValue v ->
                      truthy v = true -> is_dict v = false ->
                      ("json_body", PDict [("_parsererror", v)]) ∈ extra)
        /\ ("user-agent" ∈ extra.*1 <-> is_Some (user_agent request))).
Proof.
  split.
  - intros e He. unfold _request_end. rewrite He. reflexivity.
  - intros Hjson Hfilter. unfold _request_end.
    set (body := match get_json request with
                 | JsonValue v => Done v
                 | JsonHTTPException => Done PNone
                 | JsonError e => Raise e
                 end).
    assert (exists j0, body = Done j0
              /\ (get_json request = JsonHTTPException -> j0 = PNone)
              /\ (forall v, get_json request = JsonValue v -> j0 = v)) as (j0 & -> & Hh & Hv).
    { subst body. destruct (get_json request) as [v | | e].
      - exists v. split; [reflexivity |]. split; [discriminate | intros ? [= ->]; reflexivity].
      - exists PNone. split; [reflexivity |]. split; [reflexivity | discriminate].
      - contradiction (Hjson e). reflexivity. }
    set (filtered := if is_dict (values_to_dict request) then _ else _).
    assert (exists vals, filtered = Done vals) as (vals & ->).
    { subst filtered. destruct (is_dict (values_to_dict request)).
      - apply Hfilter. reflexivity.
      - eexists. reflexivity. }
    set (j := if truthy j0 && negb (is_dict j0) then _ else j0).
    assert (is_dict j = true \/ truthy j = false) as Hshape.
    { subst j. destruct (truthy j0) eqn:Et; [| right; exact Et].
      destruct (is_dict j0) eqn:Ed; [left; exact Ed | left; reflexivity]. }
    assert (get_json request = JsonHTTPException -> j = PNone) as HhJ.
    { intros E. subst j. rewrite (Hh E). reflexivity. }
    assert (forall v, get_json request = JsonValue v ->
                      truthy v = true -> is_dict v = false ->
                      j = PDict [("_parsererror", v)]) as HvJ.
    { intros v E Et Ed. subst j. rewrite (Hv v E), Et, Ed. reflexivity. }
    clearbody j.
    set (base := [("endpoint", endpoint request); ("request_id", PStr (request_id request));
                  ("remote_addr", remote_addr request); ("http_method", PStr (method request));
                  ("original_url", PStr (url request)); ("path", PStr (path request));
                  ("parameters", vals); ("json_body", j); ("confsha", PStr digest)]).
    assert (("json_body", j) ∈ base) as Hin.
    { subst base. do 7 apply list_elem_of_further. apply list_elem_of_here. }
    assert ("user-agent" ∉ base.*1) as Hfresh.
    { subst base. simpl. intros Hua.
      repeat (apply elem_of_cons in Hua as [Hua | Hua]; [discriminate Hua |]).
      by apply elem_of_nil in Hua. }
    clearbody base.
    eexists. split; [reflexivity |].
    assert (forall x, x ∈ base ->
              x ∈ match user_agent request with
                  | Some agent => (base ++ [("user-agent", PStr agent)])%list
                  | None => base
                  end) as Hkeep.
    { intros x Hx. destruct (user_agent request); [apply elem_of_app; left |]; exact Hx. }
    split; [| split; [| split]].
    + exists j. split; [apply Hkeep, Hin | exact Hshape].
    + intros E. rewrite <- (HhJ E). apply Hkeep, Hin.
    + intros v E Et Ed. rewrite <- (HvJ v E Et Ed). apply Hkeep, Hin.
    + destruct (user_agent request) as [agent |].
      * rewrite fmap_app. split; [intros _; eexists; reflexivity |].
        intros _. apply elem_of_app. right. apply list_elem_of_here.
      * split; [intros Hua; contradiction | intros [? E]; discriminate E].
Qed.

Lemma request_end_logs_witness :
  let request :=
    {| endpoint := PStr "v2.list"; request_id := "urn:request:1";
       remote_addr := PStr "10.0.0.1"; method := "GET"; url := "http://quay/v2/";
       path := "/v2/"; values_to_dict := PDict [];
       get_json := JsonValue (PList [PInt 1]); user_agent := None |} in
  exists extra,
    _request_end (fun v _ => Done v) "0a1b2c3d" request (PObj 1)
    = ([Debug "Ending request: %s (%s)" ["urn:request:1"; "/v2/"] extra], Done (PObj 1))
    /\ ("json_body", PDict [("_parsererror", PList [PInt 1])]) ∈ extra.
Proof.
  intros request.
  destruct (proj2 (request_end_logs (fun v _ => Done v) "0a1b2c3d" request (PObj 1)))
    as (extra & Hrun & _ & _ & Hwrap & _).
  - intros e. discriminate.
  - intros _. eexists. reflexivity.
  - exists extra. split; [exact Hrun |].
    apply (Hwrap (PList [PInt 1])); reflexivity.
Defined.

(** ** The table of filtered values *)

Lemma substring_prefix_length (m : nat) (s : string) :
  String.length (String.substring 0 m s) = Nat.min m (String.length s).
Proof.
  revert s. induction m as [| m IH]; intros s.
  - destruct s; reflexivity.
  - destruct s as [| c s]; simpl; [reflexivity | rewrite IH; reflexivity].
Qed.

Lemma substring_prefix (m : nat) (s : string) :
  String.prefix (String.substring 0 m s) s = true.
Proof.
  revert s. induction m as [| m IH]; intros s.
  - destruct s; reflexivity.
  - destruct s as [| c s]; simpl; [reflexivity |].
    destruct (Ascii.ascii_dec c c) as [_ | Hne]; [apply IH | contradiction Hne; reflexivity].
Qed.

Lemma substring_short (m : nat) (s : string) :
  (String.length s <= m)%nat -> String.substring 0 m s = s.
Proof.
  revert s. induction m as [| m IH]; intros s Hlen.
  - destruct s; [reflexivity | simpl in Hlen; lia].
  - destruct s as [| c s]; simpl; [reflexivity |].
    rewrite IH; [reflexivity | simpl in Hlen; lia].
Qed.

(** X15: every filter of [FILTERED_VALUES] turns a string into a string
    of at most ten characters, without failing.  The filters of the two
    password entries return the same text for every value, so nothing of
    a password reaches the log; the filter of the blob entry returns the
    first eight characters of the value, and the whole value when it has
    no more than eight. *)
Theorem filtered_values_bounded (f : filtered_value) (s : string) :
  f ∈ FILTERED_VALUES ->
  exists p,
    fn f (PStr s) = Some (PStr p)
    /\ (String.length p <= 10)%nat
    /\ (last (key f) = Some "password" -> forall x, fn f x = Some (PStr "[FILTERED]"))
    /\ (key f = ["blob"] ->
        String.length p = Nat.min 8 (String.length s)
        /\ String.prefix p s = true
        /\ ((String.length s <= 8)%nat -> p = s)).
Proof.
  unfold FILTERED_VALUES. intros Hin.
  apply elem_of_cons in Hin as [-> | Hin];
    [| apply elem_of_cons in Hin as [-> | Hin];
       [| apply elem_of_cons in Hin as [-> | Hin]; [| by apply elem_of_nil in Hin]]];
    simpl.
  - exists "[FILTERED]". split; [reflexivity |]. split; [simpl; lia |].
    split; [intros _ x; reflexivity | discriminate].
  - exists "[FILTERED]". split; [reflexivity |]. split; [simpl; lia |].
    split; [intros _ x; reflexivity | discriminate].
  - exists (String.substring 0 8 s). split; [reflexivity |].
    split; [rewrite substring_prefix_length; lia |].
    split; [discriminate |]. intros _.
    split; [apply substring_prefix_length |].
    split; [apply substring_prefix | apply substring_short].
Qed.

Lemma filtered_values_bounded_witness :
  exists p,
    blob_filter (PStr "sha256:0123456789abcdef") = Some (PStr p)
    /\ (String.length p <= 10)%nat
    /\ String.prefix p "sha256:0123456789abcdef" = true.
Proof.
  destruct (filtered_values_bounded {| key := ["blob"]; fn := blob_filter |}
              "sha256:0123456789abcdef") as (p & Hp & Hlen & _ & Hblob).
  - do 2 apply list_elem_of_further. apply list_elem_of_here.
  - exists p. split; [exact Hp |]. split; [exact Hlen |].
    apply (Hblob eq_refl).
Defined.
